(** * Meal planner: storage module, categorizer and shopping-list aggregator

    A shallow embedding of the storage layer of the meal-planning
    application (the [STORAGE MODULE] of the bundled script, together with
    [generateAutoMealPlan] of [js/meal-planner.js] and [generateShoppingList]
    of the shopping-list page) and the properties of its meal plan, its
    ingredient categorizer, its aggregator and its shopping list.

    Modelling conventions.
    - A JavaScript string is a [string]; [toLowerCase] folds the ASCII
      letters, which is what the engine does on ASCII text.
    - A plain JavaScript object is the ordered list of its own properties,
      in the order [Object.keys] and [JSON.stringify] enumerate them: array
      indices first, ascending, then the other keys in creation order.
      Reading a property that is not an own property falls back on
      [Object.prototype].
    - [localStorage] is a record with one optional field per storage key;
      [JSON.stringify] followed by [JSON.parse] is the identity on the
      values stored here (recipes are JSON themselves, parsed from the
      answer of the API), and a write always succeeds.
    - A JavaScript number is a binary64 floating-point number, a [float]
      of the kernel: quantities ([amount]) are added with its addition,
      which rounds as the engine does.
    - [Date.now()] is an input of the operations that read the clock. *)

From Stdlib Require Import PrimFloat.
From Stdlib Require Import String Ascii List ZArith NArith Bool Arith Lia.
Import ListNotations.

Local Open Scope string_scope.
Local Open Scope list_scope.

(* ================================================================== *)
(** ** JavaScript strings and objects *)

Module Js.

(** [c.toLowerCase()] on one ASCII character. *)
Definition lower_ascii (c : ascii) : ascii :=
  let n := nat_of_ascii c in
  if (65 <=? n)%nat && (n <=? 90)%nat then ascii_of_nat (n + 32) else c.

(** [s.toLowerCase()]. *)
Fixpoint toLowerCase (s : string) : string :=
  match s with
  | EmptyString => EmptyString
  | String c t => String (lower_ascii c) (toLowerCase t)
  end.

(** [s.includes(needle)]. *)
Fixpoint includes (s needle : string) : bool :=
  String.prefix needle s
  || match s with
     | EmptyString => false
     | String _ t => includes t needle
     end.

(** [a || b] where [a] is a string that may be absent: the empty string
    is falsy, like [null] and [undefined]. *)
Definition str_or (a : option string) (b : string) : string :=
  match a with
  | Some s => if s =? "" then b else s
  | None => b
  end.

(** [a || 0] where [a] is a number that may be absent: the zeros and
    [NaN] are falsy, like [null] and [undefined]. *)
Definition num_or_zero (a : option float) : float :=
  match a with
  | Some n => if PrimFloat.is_zero n || PrimFloat.is_nan n then 0%float else n
  | None => 0%float
  end.

(** An object: its own enumerable properties, in enumeration order. *)
Definition obj (V : Type) : Type := list (string * V).

(** [Object.keys(o)]. *)
Definition keys {V : Type} (o : obj V) : list string := map fst o.

(** The own property [k] of [o], if there is one. *)
Fixpoint own_get {V : Type} (o : obj V) (k : string) : option V :=
  match o with
  | [] => None
  | (k', v) :: t => if k' =? k then Some v else own_get t k
  end.

(** The property names every plain object inherits from
    [Object.prototype]. *)
Definition object_prototype_names : list string :=
  [ "constructor"; "__defineGetter__"; "__defineSetter__";
    "hasOwnProperty"; "__lookupGetter__"; "__lookupSetter__";
    "isPrototypeOf"; "propertyIsEnumerable"; "toString"; "valueOf";
    "__proto__"; "toLocaleString" ].

(** The outcome of the read [o[k]]: an own property, a built-in object
    found on the prototype (always truthy), or [undefined]. *)
Inductive property (V : Type) : Type :=
| OwnValue (v : V)
| InheritedValue
| Undefined.
Arguments OwnValue {V} v.
Arguments InheritedValue {V}.
Arguments Undefined {V}.

(** [o[k]]. *)
Definition get {V : Type} (o : obj V) (k : string) : property V :=
  match own_get o k with
  | Some v => OwnValue v
  | None =>
      if existsb (String.eqb k) object_prototype_names
      then InheritedValue
      else Undefined
  end.

Definition digit_val (c : ascii) : option N :=
  let n := N_of_ascii c in
  if (48 <=? n)%N && (n <=? 57)%N then Some (n - 48)%N else None.

Fixpoint decimal_val (s : string) (acc : N) : option N :=
  match s with
  | EmptyString => Some acc
  | String c t =>
      match digit_val c with
      | Some d => decimal_val t (10 * acc + d)%N
      | None => None
      end
  end.

(** The array index a property key denotes, if any: a canonical decimal
    numeral below 2^32 - 1. *)
Definition array_index (k : string) : option N :=
  match k with
  | EmptyString => None
  | String "0"%char EmptyString => Some 0%N
  | String "0"%char _ => None
  | _ =>
      match decimal_val k 0 with
      | Some n => if (n <=? 4294967294)%N then Some n else None
      | None => None
      end
  end.

(** Overwrite the value of the existing own property [k], in place. *)
Fixpoint replace {V : Type} (k : string) (v : V) (o : obj V) : obj V :=
  match o with
  | [] => []
  | (k', v') :: t =>
      if k' =? k then (k', v) :: t else (k', v') :: replace k v t
  end.

(** Create the own property [k] whose key is the array index [n]: it
    goes after the smaller indices and before everything else. *)
Fixpoint insert_index {V : Type} (n : N) (k : string) (v : V) (o : obj V)
  : obj V :=
  match o with
  | [] => [(k, v)]
  | (k', v') :: t =>
      match array_index k' with
      | Some n' =>
          if (n' <? n)%N then (k', v') :: insert_index n k v t
          else (k, v) :: o
      | None => (k, v) :: o
      end
  end.

(** Create or overwrite the own property [k]. *)
Definition define {V : Type} (k : string) (v : V) (o : obj V) : obj V :=
  match own_get o k with
  | Some _ => replace k v o
  | None =>
      match array_index k with
      | Some n => insert_index n k v o
      | None => o ++ [(k, v)]
      end
  end.

(** [o[k] = v] on a plain object.  The key ["__proto__"] reaches the
    accessor of [Object.prototype], which creates no own property. *)
Definition assign {V : Type} (k : string) (v : V) (o : obj V) : obj V :=
  if k =? "__proto__" then o else define k v o.

End Js.

(* ================================================================== *)
(** ** Data model *)

(** An ingredient of a recipe, as the recipe API delivers it. *)
Record Ingredient : Type := mkIngredient {
  ing_name : string;
  ing_amount : option float;
  ing_unit : option string;
  ing_aisle : option string
}.

(** A recipe: the fields the storage layer depends on. *)
Record Recipe : Type := mkRecipe {
  recipe_id : Z;
  recipe_title : string;
  extendedIngredients : option (list Ingredient)
}.

(** An entry of the generated list, the object literal built by
    [generateShoppingListFromMealPlan]. *)
Record AggregatedIngredient : Type := mkAggregated {
  agg_name : string;
  agg_category : string;
  agg_amount : float;
  agg_unit : string;
  agg_checked : bool
}.

(** An item of the persisted shopping list, the object literal pushed by
    [addToShoppingList]. *)
Record ShoppingItem : Type := mkShoppingItem {
  item_id : Z;
  item_name : string;
  item_category : string;
  item_checked : bool;
  item_addedAt : Z
}.

(** The argument of [addToShoppingList]: whatever object the caller hands
    over.  The manual add passes [{name, category}]; the commit of a
    generated list passes an aggregated entry. *)
Record ItemArg : Type := mkItemArg {
  arg_name : string;
  arg_category : option string;
  arg_amount : option float;
  arg_unit : option string;
  arg_checked : option bool
}.

(** A day of the plan maps meal types to a recipe or [null]. *)
Definition DayPlan : Type := Js.obj (option Recipe).

(** The meal plan maps days to day plans. *)
Definition MealPlan : Type := Js.obj DayPlan.

(** One element of the array returned by [getAllMealsFromPlan]. *)
Record Meal : Type := mkMeal {
  meal_day : string;
  meal_mealType : string;
  meal_recipe : Recipe
}.

(* ================================================================== *)
(** ** The built-in [Map], keyed by strings *)

Module JsMap.

(** A [Map] keeps its entries in insertion order. *)
Definition t (V : Type) : Type := list (string * V).

(** [new Map()]. *)
Definition empty {V : Type} : t V := [].

(** [m.has(k)]. *)
Fixpoint has {V : Type} (m : t V) (k : string) : bool :=
  match m with
  | [] => false
  | (k', _) :: r => (k' =? k) || has r k
  end.

(** [m.get(k)]. *)
Fixpoint get {V : Type} (m : t V) (k : string) : option V :=
  match m with
  | [] => None
  | (k', v) :: r => if k' =? k then Some v else get r k
  end.

(** [m.set(k, v)]: a known key keeps its position, a new key goes last. *)
Fixpoint set {V : Type} (k : string) (v : V) (m : t V) : t V :=
  match m with
  | [] => [(k, v)]
  | (k', v') :: r => if k' =? k then (k', v) :: r else (k', v') :: set k v r
  end.

(** A mutation [f] of the object [m.get(k)] returns: the entry of the map
    is that same object, so the map sees the change. *)
Fixpoint update {V : Type} (k : string) (f : V -> V) (m : t V) : t V :=
  match m with
  | [] => []
  | (k', v) :: r =>
      if k' =? k then (k', f v) :: r else (k', v) :: update k f r
  end.

(** [Array.from(m.values())]. *)
Definition values {V : Type} (m : t V) : list V := map snd m.

End JsMap.

(* ================================================================== *)
(** ** The storage module *)

Module Storage.

(** The two [localStorage] entries the meal plan and the shopping list
    live in; [None] is a key that has never been written. *)
Record localStorage : Type := mkStorage {
  MEAL_PLAN : option MealPlan;
  SHOPPING_LIST : option (list ShoppingItem)
}.

(** [saveToStorage(STORAGE_KEYS.MEAL_PLAN, data)]. *)
Definition saveMealPlan (data : MealPlan) (st : localStorage) : localStorage :=
  {| MEAL_PLAN := Some data; SHOPPING_LIST := SHOPPING_LIST st |}.

(** [saveToStorage(STORAGE_KEYS.SHOPPING_LIST, data)]. *)
Definition saveShoppingList (data : list ShoppingItem) (st : localStorage)
  : localStorage :=
  {| MEAL_PLAN := MEAL_PLAN st; SHOPPING_LIST := Some data |}.

(** *** Meal plan management *)

Definition emptyDay : DayPlan :=
  [ ("breakfast", None); ("lunch", None); ("dinner", None) ].

Definition emptyPlan : MealPlan :=
  [ ("monday", emptyDay);
    ("tuesday", emptyDay);
    ("wednesday", emptyDay);
    ("thursday", emptyDay);
    ("friday", emptyDay);
    ("saturday", emptyDay);
    ("sunday", emptyDay) ].

Definition getMealPlan (st : localStorage) : MealPlan :=
  match MEAL_PLAN st with
  | Some mealPlan => mealPlan
  | None => emptyPlan
  end.

(** [mealPlan[day][mealType] = value] followed by the save, once
    [mealPlan[day]] has been read and found truthy.  When [day] names a
    property of [Object.prototype] the write lands on a built-in object and
    the plan that is saved is the plan that was read.  The built-in objects
    are not part of the state: a write on one of them is followed no
    further, and the few such writes that raise (the [caller] and
    [arguments] accessors of a function, the prototype of
    [Object.prototype]) are taken to return like the others. *)
Definition writeSlot (mealPlan : MealPlan) (day mealType : string)
  (value : option Recipe) (target : Js.property DayPlan) : MealPlan :=
  match target with
  | Js.OwnValue d => Js.replace day (Js.assign mealType value d) mealPlan
  | _ => mealPlan
  end.

Definition addMealToPlan (day mealType : string) (recipe : Recipe)
  (st : localStorage) : bool * localStorage :=
  let mealPlan := getMealPlan st in
  match Js.get mealPlan day with
  | Js.Undefined => (false, st)
  | target =>
      (true, saveMealPlan (writeSlot mealPlan day mealType (Some recipe) target) st)
  end.

Definition removeMealFromPlan (day mealType : string) (st : localStorage)
  : bool * localStorage :=
  let mealPlan := getMealPlan st in
  match Js.get mealPlan day with
  | Js.Undefined => (false, st)
  | target =>
      (true, saveMealPlan (writeSlot mealPlan day mealType None target) st)
  end.

Definition clearMealPlan (st : localStorage) : localStorage :=
  saveMealPlan emptyPlan st.

Definition getAllMealsFromPlan (st : localStorage) : list Meal :=
  let mealPlan := getMealPlan st in
  flat_map
    (fun day =>
       match Js.own_get mealPlan day with
       | Some d =>
           flat_map
             (fun mealType =>
                match Js.own_get d mealType with
                | Some (Some meal) => [mkMeal day mealType meal]
                | _ => []
                end)
             (Js.keys d)
       | None => []
       end)
    (Js.keys mealPlan).

(** *** Shopping list management *)

Definition getShoppingList (st : localStorage) : list ShoppingItem :=
  match SHOPPING_LIST st with
  | Some items => items
  | None => []
  end.

(** [addToShoppingList(item)]; [now_id] and [now_addedAt] are the two
    readings of [Date.now()] taken while the new item is built. *)
Definition addToShoppingList (item : ItemArg) (now_id now_addedAt : Z)
  (st : localStorage) : bool * localStorage :=
  let items := getShoppingList st in
  let exists_ :=
    existsb
      (fun i => Js.toLowerCase (item_name i) =? Js.toLowerCase (arg_name item))
      items in
  if exists_ then (false, st)
  else
    (true,
     saveShoppingList
       (items ++ [ {| item_id := now_id;
                     item_name := arg_name item;
                     item_category := Js.str_or (arg_category item) "other";
                     item_checked := false;
                     item_addedAt := now_addedAt |} ])
       st).

Definition removeFromShoppingList (itemId : Z) (st : localStorage)
  : localStorage :=
  let items := getShoppingList st in
  let filtered := filter (fun item => negb (item_id item =? itemId)%Z) items in
  saveShoppingList filtered st.

(** [item.checked = !item.checked] on the first item [find] returns. *)
Fixpoint toggleFirst (itemId : Z) (items : list ShoppingItem)
  : option (list ShoppingItem) :=
  match items with
  | [] => None
  | i :: r =>
      if (item_id i =? itemId)%Z then
        Some ({| item_id := item_id i;
                 item_name := item_name i;
                 item_category := item_category i;
                 item_checked := negb (item_checked i);
                 item_addedAt := item_addedAt i |} :: r)
      else option_map (cons i) (toggleFirst itemId r)
  end.

Definition toggleShoppingItem (itemId : Z) (st : localStorage)
  : bool * localStorage :=
  match toggleFirst itemId (getShoppingList st) with
  | Some items => (true, saveShoppingList items st)
  | None => (false, st)
  end.

Definition clearShoppingList (st : localStorage) : localStorage :=
  saveShoppingList [] st.

Definition categorizeIngredient (aisle : option string) : string :=
  let aisleStr := Js.toLowerCase (Js.str_or aisle "") in
  if Js.includes aisleStr "produce" || Js.includes aisleStr "vegetable"
     || Js.includes aisleStr "fruit" then "produce"
  else if Js.includes aisleStr "meat" || Js.includes aisleStr "seafood"
     || Js.includes aisleStr "poultry" then "meat"
  else if Js.includes aisleStr "dairy" || Js.includes aisleStr "cheese"
     || Js.includes aisleStr "milk" then "dairy"
  else if Js.includes aisleStr "bread" || Js.includes aisleStr "bakery"
     || Js.includes aisleStr "grain" then "grains"
  else if Js.includes aisleStr "spice" || Js.includes aisleStr "condiment"
     || Js.includes aisleStr "oil" then "spices"
  else if Js.includes aisleStr "canned" || Js.includes aisleStr "jar"
     then "pantry"
  else "other".

(** The body of the inner [forEach] of
    [generateShoppingListFromMealPlan]. *)
Definition addIngredient (ingredients : JsMap.t AggregatedIngredient)
  (ingredient : Ingredient) : JsMap.t AggregatedIngredient :=
  let name := ing_name ingredient in
  let category :=
    categorizeIngredient (Some (Js.str_or (ing_aisle ingredient) name)) in
  if JsMap.has ingredients name then
    JsMap.update name
      (fun existing =>
         {| agg_name := agg_name existing;
            agg_category := agg_category existing;
            agg_amount :=
              PrimFloat.add (agg_amount existing)
                (Js.num_or_zero (ing_amount ingredient));
            agg_unit := agg_unit existing;
            agg_checked := agg_checked existing |})
      ingredients
  else
    JsMap.set name
      {| agg_name := name;
         agg_category := category;
         agg_amount := Js.num_or_zero (ing_amount ingredient);
         agg_unit := Js.str_or (ing_unit ingredient) "";
         agg_checked := false |}
      ingredients.

(** The body of the outer [forEach]. *)
Definition addMeal (ingredients : JsMap.t AggregatedIngredient) (meal : Meal)
  : JsMap.t AggregatedIngredient :=
  match extendedIngredients (meal_recipe meal) with
  | Some l => fold_left addIngredient l ingredients
  | None => ingredients
  end.

Definition generateShoppingListFromMealPlan (st : localStorage)
  : list AggregatedIngredient :=
  let meals := getAllMealsFromPlan st in
  let ingredients := fold_left addMeal meals JsMap.empty in
  JsMap.values ingredients.

End Storage.

(* ================================================================== *)
(** ** The meal-planner page *)

Module MealPlanner.

Definition days : list string :=
  [ "monday"; "tuesday"; "wednesday"; "thursday"; "friday"; "saturday";
    "sunday" ].

Definition mealTypes : list string := [ "breakfast"; "lunch"; "dinner" ].

(** The body of the inner [forEach] of [generateAutoMealPlan]; the
    accumulator carries [recipeIndex] and the storage. *)
Definition fillSlot (recipes : list Recipe) (day : string)
  (acc : nat * Storage.localStorage) (mealType : string)
  : nat * Storage.localStorage :=
  let '(recipeIndex, st) := acc in
  match nth_error recipes recipeIndex with
  | Some recipe =>
      (S recipeIndex, snd (Storage.addMealToPlan day mealType recipe st))
  | None => acc
  end.

(** The body of the outer [forEach]. *)
Definition fillDay (recipes : list Recipe)
  (acc : nat * Storage.localStorage) (day : string)
  : nat * Storage.localStorage :=
  fold_left (fillSlot recipes day) mealTypes acc.

(** [generateAutoMealPlan()], on the storage.  [apiKeyConfigured] is the
    answer of [API.isAPIKeyConfigured()] and [recipes] the array
    [API.getRandomRecipes(21)] resolves to.  An empty array raises
    ['No recipes returned'], which the handler of the function catches
    after the plan has been cleared. *)
Definition generateAutoMealPlan (apiKeyConfigured : bool)
  (recipes : list Recipe) (st : Storage.localStorage)
  : Storage.localStorage :=
  if negb apiKeyConfigured then st
  else
    let cleared := Storage.clearMealPlan st in
    match recipes with
    | [] => cleared
    | _ => snd (fold_left (fillDay recipes) days (0, cleared))
    end.

End MealPlanner.

(* ================================================================== *)
(** ** The shopping-list page *)

Module ShoppingPage.

(** An aggregated entry handed to [addToShoppingList] as it is. *)
Definition asItemArg (a : AggregatedIngredient) : ItemArg :=
  {| arg_name := agg_name a;
     arg_category := Some (agg_category a);
     arg_amount := Some (agg_amount a);
     arg_unit := Some (agg_unit a);
     arg_checked := Some (agg_checked a) |}.

(** [items.forEach(item => Storage.addToShoppingList(item))]; [clock i]
    holds the two clock readings of the call made for the item of index
    [i]. *)
Definition commitItem (clock : nat -> Z * Z)
  (acc : nat * Storage.localStorage) (item : AggregatedIngredient)
  : nat * Storage.localStorage :=
  let '(i, st) := acc in
  (S i,
   snd (Storage.addToShoppingList (asItemArg item)
          (fst (clock i)) (snd (clock i)) st)).

Definition commitGenerated (clock : nat -> Z * Z)
  (items : list AggregatedIngredient) (st : Storage.localStorage)
  : Storage.localStorage :=
  snd (fold_left (commitItem clock) items (0, st)).

(** [generateShoppingList()], on the storage. *)
Definition generateShoppingList (clock : nat -> Z * Z)
  (st : Storage.localStorage) : Storage.localStorage :=
  let items := Storage.generateShoppingListFromMealPlan st in
  match items with
  | [] => st
  | _ => commitGenerated clock items (Storage.clearShoppingList st)
  end.

End ShoppingPage.

(* ================================================================== *)
(** ** Vocabulary of the properties *)

Import Storage MealPlanner.

(** The value of the slot [day], [mealType] of a plan: [None] when the
    plan has no such slot, [Some None] when the slot is empty. *)
Definition slotAt (p : MealPlan) (day mealType : string)
  : option (option Recipe) :=
  match Js.own_get p day with
  | Some d => Js.own_get d mealType
  | None => None
  end.

(** All the slots of a plan, in enumeration order. *)
Definition slots (p : MealPlan) : list (string * string * option Recipe) :=
  flat_map (fun '(day, d) => map (fun '(mealType, v) => (day, mealType, v)) d)
    p.

(** The 21 slot names, day-major and meal-minor. *)
Definition slotNames : list (string * string) := list_prod days mealTypes.

Fixpoint strings_eqb (a b : list string) : bool :=
  match a, b with
  | [], [] => true
  | x :: a', y :: b' => (x =? y) && strings_eqb a' b'
  | _, _ => false
  end.

(** The plan has the seven days, each with the three meal types, and
    nothing else. *)
Definition fullGrid (p : MealPlan) : bool :=
  strings_eqb (Js.keys p) days
  && forallb (fun '(_, d) => strings_eqb (Js.keys d) mealTypes) p.

(** The operations of the meal plan model. *)
Inductive PlanOp : Type :=
| Get
| SetMeal (day mealType : string) (recipe : Recipe)
| ClearMeal (day mealType : string)
| ClearAll
| AutoGenerate (apiKeyConfigured : bool) (recipes : list Recipe).

Definition runOp (op : PlanOp) (st : localStorage) : localStorage :=
  match op with
  | Get => st
  | SetMeal day mealType recipe => snd (addMealToPlan day mealType recipe st)
  | ClearMeal day mealType => snd (removeMealFromPlan day mealType st)
  | ClearAll => clearMealPlan st
  | AutoGenerate apiKeyConfigured recipes =>
      generateAutoMealPlan apiKeyConfigured recipes st
  end.

(** The operation names one of the three meal types, when it names one. *)
Definition namesMealType (op : PlanOp) : bool :=
  match op with
  | SetMeal _ mealType _ | ClearMeal _ mealType =>
      existsb (String.eqb mealType) mealTypes
  | _ => true
  end.

(** The states the operations lead to, from a storage in which no plan
    has been saved yet. *)
Inductive reachable : localStorage -> Prop :=
| reachable_fresh (l : option (list ShoppingItem)) :
    reachable {| MEAL_PLAN := None; SHOPPING_LIST := l |}
| reachable_step (op : PlanOp) (st : localStorage) :
    reachable st -> reachable (runOp op st).

(** The same, when every operation names one of the three meal types. *)
Inductive reachableTyped : localStorage -> Prop :=
| typed_fresh (l : option (list ShoppingItem)) :
    reachableTyped {| MEAL_PLAN := None; SHOPPING_LIST := l |}
| typed_step (op : PlanOp) (st : localStorage) :
    namesMealType op = true ->
    reachableTyped st -> reachableTyped (runOp op st).

(** The rules of the categorizer as a table, in priority order. *)
Definition categoryRules : list (string * list string) :=
  [ ("produce", ["produce"; "vegetable"; "fruit"]);
    ("meat", ["meat"; "seafood"; "poultry"]);
    ("dairy", ["dairy"; "cheese"; "milk"]);
    ("grains", ["bread"; "bakery"; "grain"]);
    ("spices", ["spice"; "condiment"; "oil"]);
    ("pantry", ["canned"; "jar"]) ].

(** The category of the first rule one of whose words occurs in the
    lowercased hint, ["other"] when there is none. *)
Definition firstMatch (hint : option string) : string :=
  let s := Js.toLowerCase (match hint with Some h => h | None => "" end) in
  match find (fun rule => existsb (Js.includes s) (snd rule)) categoryRules with
  | Some rule => fst rule
  | None => "other"
  end.

(** The ingredients a recipe contributes. *)
Definition ingredientsOf (r : Recipe) : list Ingredient :=
  match extendedIngredients r with
  | Some l => l
  | None => []
  end.

(** The ingredients of the plan, in traversal order. *)
Definition planIngredients (st : localStorage) : list Ingredient :=
  flat_map (fun meal => ingredientsOf (meal_recipe meal))
    (getAllMealsFromPlan st).

(** The ingredients of the plan that bear the name [n]. *)
Definition named (n : string) (l : list Ingredient) : list Ingredient :=
  filter (fun i => ing_name i =? n) l.

(** The amount the ingredients [l] of one name add up to: the amount of
    the first, to which the amounts of the others are added one after the
    other, in the order of the list. *)
Definition sumAmounts (l : list Ingredient) : float :=
  match l with
  | [] => 0%float
  | first :: others =>
      fold_left
        (fun acc i => PrimFloat.add acc (Js.num_or_zero (ing_amount i)))
        others (Js.num_or_zero (ing_amount first))
  end.

(** A list of names without its repetitions: each name stays where it
    occurs first. *)
Fixpoint firstOccurrences (l : list string) : list string :=
  match l with
  | [] => []
  | x :: r => x :: filter (fun y => negb (y =? x)) (firstOccurrences r)
  end.

(** What the aggregator makes of the ingredients that share one name:
    [first] is the first of them, [occ] all of them. *)
Definition mergedEntry (n : string) (first : Ingredient) (occ : list Ingredient)
  : AggregatedIngredient :=
  {| agg_name := n;
     agg_category :=
       categorizeIngredient
         (Some (Js.str_or (ing_aisle first) (ing_name first)));
     agg_amount := sumAmounts occ;
     agg_unit := Js.str_or (ing_unit first) "";
     agg_checked := false |}.

(** The entries of a generated list that bear the name [n]. *)
Definition entriesNamed (n : string) (l : list AggregatedIngredient)
  : list AggregatedIngredient :=
  filter (fun a => agg_name a =? n) l.

(** *** Sample data *)

Definition plainRecipe (id : Z) (title : string) (l : list Ingredient) : Recipe :=
  {| recipe_id := id; recipe_title := title; extendedIngredients := Some l |}.

Definition pancakes : Recipe :=
  plainRecipe 11 "Pancakes"
    [ mkIngredient "flour" (Some 200%float) (Some "g") (Some "Baking");
      mkIngredient "milk" (Some 300%float) (Some "ml")
        (Some "Milk, Eggs, Other Dairy") ].

Definition flatbread : Recipe :=
  plainRecipe 12 "Flatbread"
    [ mkIngredient "flour" (Some 150%float) (Some "cups") (Some "Bakery/Bread");
      mkIngredient "flour" None None None ].

Definition shortcrust : Recipe :=
  plainRecipe 13 "Shortcrust"
    [ mkIngredient "Flour" (Some 100%float) None None ].

(** Two recipes with quantities that are fractions, and two with
    quantities whose sum is rounded. *)
Definition shortbread : Recipe :=
  plainRecipe 14 "Shortbread"
    [ mkIngredient "butter" (Some 0.5%float) (Some "cup") (Some "Dairy");
      mkIngredient "sugar" (Some 9007199254740992%float) (Some "g") None ].

Definition glaze : Recipe :=
  plainRecipe 15 "Glaze"
    [ mkIngredient "butter" (Some 0.25%float) (Some "tbsp") None;
      mkIngredient "sugar" (Some 1%float) None None ].

Definition freshStorage : localStorage :=
  {| MEAL_PLAN := None; SHOPPING_LIST := None |}.

(** A plan with three populated slots. *)
Definition flourStorage : localStorage :=
  snd (addMealToPlan "thursday" "dinner" shortcrust
    (snd (addMealToPlan "monday" "lunch" flatbread
      (snd (addMealToPlan "monday" "breakfast" pancakes freshStorage))))).

(** A plan whose quantities are not whole numbers of moderate size. *)
Definition butterStorage : localStorage :=
  snd (addMealToPlan "wednesday" "dinner" glaze
    (snd (addMealToPlan "wednesday" "lunch" shortbread freshStorage))).

(** Two plans that differ in the amount and the unit of one ingredient. *)
Definition twoLoaves : localStorage * localStorage :=
  (snd (addMealToPlan "monday" "breakfast"
          (plainRecipe 21 "Loaf"
             [ mkIngredient "flour" (Some 200%float) (Some "g") (Some "Baking") ])
          freshStorage),
   snd (addMealToPlan "monday" "breakfast"
          (plainRecipe 21 "Loaf"
             [ mkIngredient "flour" (Some 150%float) (Some "cups") (Some "Baking") ])
          freshStorage)).

(** *** The shopping list *)

(** The name of [item] equals, up to case, the name of an item of the
    list: the test [addToShoppingList] makes. *)
Definition alreadyListed (item : ItemArg) (st : localStorage) : bool :=
  existsb
    (fun i => Js.toLowerCase (item_name i) =? Js.toLowerCase (arg_name item))
    (getShoppingList st).

(** The item with its [checked] flag flipped. *)
Definition flipChecked (i : ShoppingItem) : ShoppingItem :=
  {| item_id := item_id i;
     item_name := item_name i;
     item_category := item_category i;
     item_checked := negb (item_checked i);
     item_addedAt := item_addedAt i |}.

(** Every add of a name that is not listed yet appends an item whose id
    no item of the list bears. *)
Definition addGivesFreshId : Prop :=
  forall (st : localStorage) (item : ItemArg) (now_id now_addedAt : Z),
    alreadyListed item st = false ->
    exists new,
      getShoppingList (snd (addToShoppingList item now_id now_addedAt st))
      = getShoppingList st ++ [new]
      /\ ~ In (item_id new) (map item_id (getShoppingList st)).

(** The items a commit writes, for the entries [items] numbered from [i],
    when [seen] holds the lowercased names already in the list: an entry
    whose name is there, up to case, is passed over. *)
Fixpoint written (clock : nat -> Z * Z) (i : nat) (seen : list string)
  (items : list AggregatedIngredient) : list ShoppingItem :=
  match items with
  | [] => []
  | a :: r =>
      if existsb (fun s => s =? Js.toLowerCase (agg_name a)) seen
      then written clock (S i) seen r
      else
        {| item_id := fst (clock i);
           item_name := agg_name a;
           item_category := Js.str_or (Some (agg_category a)) "other";
           item_checked := false;
           item_addedAt := snd (clock i) |}
        :: written clock (S i) (seen ++ [Js.toLowerCase (agg_name a)]) r
  end.

(** The amount and the unit of every generated entry can be read back
    from the item the commit stored for it. *)
Definition storeRetainsAmountAndUnit : Prop :=
  exists (amountOf : ShoppingItem -> float) (unitOf : ShoppingItem -> string),
    forall (clock : nat -> Z * Z) (st : localStorage),
      generateShoppingListFromMealPlan st <> [] ->
      Forall2
        (fun a s =>
           item_name s = agg_name a
           /\ item_category s = agg_category a
           /\ amountOf s = agg_amount a
           /\ unitOf s = agg_unit a
           /\ item_checked s = false)
        (generateShoppingListFromMealPlan st)
        (getShoppingList (ShoppingPage.generateShoppingList clock st)).

(** Two items put on the list within one millisecond. *)
Definition sameMillisecond : localStorage :=
  snd (addToShoppingList (mkItemArg "Eggs" (Some "dairy") None None None)
         1700000000000%Z 1700000000000%Z
    (snd (addToShoppingList (mkItemArg "Milk" (Some "dairy") None None None)
            1700000000000%Z 1700000000000%Z freshStorage))).

(** *** The meal plan *)

(** Every reachable plan is the full grid and nothing else. *)
Definition alwaysFullGrid : Prop :=
  forall st : localStorage, reachable st -> fullGrid (getMealPlan st) = true.

(** Ten recipes. *)
Definition tenRecipes : list Recipe :=
  map (fun n => mkRecipe (Z.of_nat n) "r" None) (seq 1 10).

(** The plan has exactly the seven days, and every day plan is [okDay]. *)
Definition planOk (okDay : DayPlan -> Prop) (p : MealPlan) : Prop :=
  Js.keys p = days /\ Forall (fun kd => okDay (snd kd)) p.

(** A day plan with exactly the three meal types. *)
Definition threeMeals (d : DayPlan) : Prop := Js.keys d = mealTypes.

(** A day plan with at least the three meal types. *)
Definition atLeastThreeMeals (d : DayPlan) : Prop :=
  incl mealTypes (Js.keys d).

(* ================================================================== *)
(** ** The rest of the storage module *)

(** More of the string methods. *)
Module JsString.

(** The white space [trim] removes, as far as ASCII goes. *)
Definition isWhiteSpace (c : ascii) : bool :=
  let n := nat_of_ascii c in
  ((9 <=? n)%nat && (n <=? 13)%nat) || (n =? 32)%nat.

(** [s.trimStart()]. *)
Fixpoint trimStart (s : string) : string :=
  match s with
  | EmptyString => EmptyString
  | String c t => if isWhiteSpace c then trimStart t else s
  end.

(** [s.trimEnd()]. *)
Fixpoint trimEnd (s : string) : string :=
  match s with
  | EmptyString => EmptyString
  | String c t =>
      let t' := trimEnd t in
      if isWhiteSpace c && (t' =? "") then EmptyString else String c t'
  end.

(** [s.trim()]. *)
Definition trim (s : string) : string := trimEnd (trimStart s).

(** [c.toUpperCase()] on one ASCII character. *)
Definition upper_ascii (c : ascii) : ascii :=
  let n := nat_of_ascii c in
  if (97 <=? n)%nat && (n <=? 122)%nat then ascii_of_nat (n - 32) else c.

End JsString.

(** *** Recent searches *)

Module RecentSearches.

(** The [localStorage] entry of the recent searches. *)
Definition store : Type := option (list string).

Definition getRecentSearches (st : store) : list string :=
  match st with
  | Some searches => searches
  | None => []
  end.

Definition addRecentSearch (query : string) (st : store) : store :=
  if (query =? "") || (JsString.trim query =? "") then st
  else
    let searches := getRecentSearches st in
    let filtered := filter (fun s => negb (s =? query)) searches in
    let filtered := query :: filtered in
    let limited := firstn 10 filtered in
    Some limited.

Definition clearRecentSearches (st : store) : store := Some [].

End RecentSearches.

(** *** Favorites *)

Module Favorites.

(** A favorite: the recipe, spread, and the time it was added. *)
Record Favorite : Type := mkFavorite {
  fav_recipe : Recipe;
  fav_addedAt : Z
}.

(** [fav.id]. *)
Definition fav_id (fav : Favorite) : Z := recipe_id (fav_recipe fav).

(** The [localStorage] entry of the favorites. *)
Definition store : Type := option (list Favorite).

Definition getFavorites (st : store) : list Favorite :=
  match st with
  | Some favorites => favorites
  | None => []
  end.

Definition addToFavorites (recipe : Recipe) (now : Z) (st : store)
  : bool * store :=
  let favorites := getFavorites st in
  let exists_ :=
    existsb (fun fav => (fav_id fav =? recipe_id recipe)%Z) favorites in
  if exists_ then (false, st)
  else
    (true,
     Some (favorites ++ [ {| fav_recipe := recipe; fav_addedAt := now |} ])).

Definition removeFromFavorites (recipeId : Z) (st : store) : store :=
  let favorites := getFavorites st in
  let filtered :=
    filter (fun fav => negb (fav_id fav =? recipeId)%Z) favorites in
  Some filtered.

Definition isInFavorites (recipeId : Z) (st : store) : bool :=
  let favorites := getFavorites st in
  existsb (fun fav => (fav_id fav =? recipeId)%Z) favorites.

Definition clearFavorites (st : store) : store := Some [].

(** [toggleFavoriteDetail(recipe, button)], on the storage. *)
Definition toggleFavoriteDetail (recipe : Recipe) (now : Z) (st : store)
  : store :=
  let isFavorite := isInFavorites (recipe_id recipe) st in
  if isFavorite then removeFromFavorites (recipe_id recipe) st
  else snd (addToFavorites recipe now st).

(** The operations on the favorites. *)
Inductive FavOp : Type :=
| FavAdd (recipe : Recipe) (now : Z)
| FavRemove (recipeId : Z)
| FavClear
| FavToggle (recipe : Recipe) (now : Z).

Definition runFavOp (op : FavOp) (st : store) : store :=
  match op with
  | FavAdd recipe now => snd (addToFavorites recipe now st)
  | FavRemove recipeId => removeFromFavorites recipeId st
  | FavClear => clearFavorites st
  | FavToggle recipe now => toggleFavoriteDetail recipe now st
  end.

End Favorites.

(** *** User preferences *)

Module Preferences.

(** The value of a preference: a string, or the list of the allergies. *)
Inductive PrefValue : Type :=
| PrefString (s : string)
| PrefList (l : list string).

(** The [localStorage] entry of the preferences. *)
Definition store : Type := option (Js.obj PrefValue).

Definition defaultPreferences : Js.obj PrefValue :=
  [ ("diet", PrefString "");
    ("cuisine", PrefString "");
    ("maxTime", PrefString "");
    ("allergies", PrefList []) ].

Definition getUserPreferences (st : store) : Js.obj PrefValue :=
  match st with
  | Some preferences => preferences
  | None => defaultPreferences
  end.

Definition saveUserPreferences (preferences : Js.obj PrefValue) (st : store)
  : store :=
  Some preferences.

Definition updatePreference (key : string) (value : PrefValue) (st : store)
  : store :=
  let prefs := getUserPreferences st in
  let prefs := Js.assign key value prefs in
  saveUserPreferences prefs st.

End Preferences.

(* ================================================================== *)
(** ** Utilities *)

Module Utils.

(** [truncateText(text, maxLength)]; an absent text is [None]. *)
Definition truncateText (text : option string) (maxLength : nat) : string :=
  match text with
  | None => ""
  | Some text =>
      if text =? "" then ""
      else if (String.length text <=? maxLength)%nat then text
      else String.substring 0 maxLength text ++ "..."
  end.

(** [capitalizeFirst(str)]. *)
Definition capitalizeFirst (str : option string) : string :=
  match str with
  | Some (String c rest) => String (JsString.upper_ascii c) rest
  | _ => ""
  end.

(** [a[n] = x] within the bounds of the array. *)
Fixpoint set_nth {A : Type} (n : nat) (x : A) (l : list A) : list A :=
  match l, n with
  | [], _ => []
  | _ :: t, O => x :: t
  | a :: t, S n' => a :: set_nth n' x t
  end.

(** [[a[i], a[j]] = [a[j], a[i]]] within the bounds of the array. *)
Definition swap {A : Type} (i j : nat) (l : list A) : list A :=
  match nth_error l i, nth_error l j with
  | Some a, Some b => set_nth j a (set_nth i b l)
  | _, _ => l
  end.

(** The loop of [shuffleArray], from the index [i] down to 1; [pick i] is
    the value of [Math.floor(Math.random() * (i + 1))] drawn at the index
    [i], a number from 0 to [i]. *)
Fixpoint shuffleFrom {A : Type} (pick : nat -> nat) (i : nat)
  (shuffled : list A) : list A :=
  match i with
  | O => shuffled
  | S i' => shuffleFrom pick i' (swap i (pick i) shuffled)
  end.

Definition shuffleArray {A : Type} (pick : nat -> nat) (array : list A)
  : list A :=
  shuffleFrom pick (length array - 1) array.

End Utils.

(* ================================================================== *)
(** ** The cache of API responses *)

Module ApiCache.

(** The object [cacheAPIResponse] stores. *)
Record CacheData (D : Type) : Type := mkCacheData {
  data : D;
  timestamp : Z;
  expiry : Z
}.
Arguments mkCacheData {D} data timestamp expiry.
Arguments data {D} c.
Arguments timestamp {D} c.
Arguments expiry {D} c.

(** The [localStorage] entries whose key starts with [api_cache_], by the
    rest of their key. *)
Definition store (D : Type) : Type := list (string * CacheData D).

(** [localStorage.getItem]. *)
Fixpoint getItem {D : Type} (st : store D) (key : string)
  : option (CacheData D) :=
  match st with
  | [] => None
  | (k, v) :: r => if k =? key then Some v else getItem r key
  end.

(** [localStorage.removeItem]. *)
Definition removeItem {D : Type} (key : string) (st : store D) : store D :=
  filter (fun kv => negb (fst kv =? key)) st.

(** [localStorage.setItem]. *)
Definition setItem {D : Type} (key : string) (v : CacheData D) (st : store D)
  : store D :=
  (key, v) :: removeItem key st.

Definition cacheAPIResponse {D : Type} (key : string) (d : D)
  (expiryMinutes : Z) (now : Z) (st : store D) : store D :=
  let cacheData :=
    {| data := d; timestamp := now;
       expiry := (expiryMinutes * 60 * 1000)%Z |} in
  setItem key cacheData st.

Definition getCachedAPIResponse {D : Type} (key : string) (now : Z)
  (st : store D) : option D * store D :=
  match getItem st key with
  | None => (None, st)
  | Some cacheData =>
      if (now - timestamp cacheData <? expiry cacheData)%Z
      then (Some (data cacheData), st)
      else (None, removeItem key st)
  end.

(** [searchRecipesWithCache], on the cache: [cacheKey] is the key built
    from the query and the filters, [fetched] what [searchRecipes] resolves
    to when it is called, [now] and [later] the clock when the cache is
    read and when the results are stored. *)
Definition searchRecipesWithCache (cacheKey : string) (fetched : list Recipe)
  (now later : Z) (st : store (list Recipe))
  : list Recipe * store (list Recipe) :=
  match getCachedAPIResponse cacheKey now st with
  | (Some cached, st) => (cached, st)
  | (None, st) =>
      let results := fetched in
      (results,
       if (0 <? length results)%nat
       then cacheAPIResponse cacheKey results 30 later st
       else st)
  end.

End ApiCache.

(* ================================================================== *)
(** ** The shopping-list view and the recipe page *)

Module ShoppingView.

(** The sections [loadShoppingList] displays. *)
Definition categories : list string :=
  [ "produce"; "meat"; "dairy"; "grains"; "pantry"; "spices"; "other" ].

(** The body of the grouping loop.  [None] is the [TypeError] raised when
    [grouped[item.category]] is a built-in object, which has no [push]. *)
Definition groupItem (grouped : option (Js.obj (list ShoppingItem)))
  (item : ShoppingItem) : option (Js.obj (list ShoppingItem)) :=
  match grouped with
  | None => None
  | Some g =>
      let category := item_category item in
      let g1 :=
        match Js.get g category with
        | Js.Undefined => Js.assign category [] g
        | _ => g
        end in
      match Js.get g1 category with
      | Js.OwnValue l => Some (Js.replace category (l ++ [item]) g1)
      | _ => None
      end
  end.

(** What the page shows: the items of each section (an empty section is
    hidden) and the three counters of the summary. *)
Record View : Type := mkView {
  sections : list (string * list ShoppingItem);
  totalItems : nat;
  checkedItems : nat;
  remainingItems : nat
}.

Definition sectionOf (g : Js.obj (list ShoppingItem)) (category : string)
  : string * list ShoppingItem :=
  (category,
   match Js.get g category with
   | Js.OwnValue l => l
   | _ => []
   end).

Definition loadShoppingList (st : Storage.localStorage) : option View :=
  let shoppingList := Storage.getShoppingList st in
  match shoppingList with
  | [] =>
      Some {| sections := map (fun c => (c, [])) categories;
              totalItems := 0; checkedItems := 0; remainingItems := 0 |}
  | _ =>
      match fold_left groupItem shoppingList (Some []) with
      | None => None
      | Some grouped =>
          let checkedCount := length (filter item_checked shoppingList) in
          Some {| sections := map (sectionOf grouped) categories;
                  totalItems := length shoppingList;
                  checkedItems := checkedCount;
                  remainingItems := length shoppingList - checkedCount |}
      end
  end.

End ShoppingView.

Module RecipePage.

(** The item [addIngredientsToShoppingList] builds for an ingredient. *)
Definition itemOf (ingredient : Ingredient) : ItemArg :=
  {| arg_name := ing_name ingredient;
     arg_category :=
       Some (Storage.categorizeIngredient
               (Some (Js.str_or (ing_aisle ingredient) (ing_name ingredient))));
     arg_amount := None;
     arg_unit := None;
     arg_checked := None |}.

(** The body of the loop; the accumulator carries the index of the
    ingredient, [addedCount] and the storage. *)
Definition addOne (clock : nat -> Z * Z)
  (acc : nat * (nat * Storage.localStorage)) (ingredient : Ingredient)
  : nat * (nat * Storage.localStorage) :=
  let '(i, (addedCount, st)) := acc in
  let result :=
    Storage.addToShoppingList (itemOf ingredient)
      (fst (clock i)) (snd (clock i)) st in
  (S i, (if fst result then S addedCount else addedCount, snd result)).

(** [addIngredientsToShoppingList(recipeId)], on the storage: [fetched] is
    what [API.getRecipeById] resolves to, and the result holds [addedCount],
    or [None] when the function gives up. *)
Definition addIngredientsToShoppingList (fetched : option Recipe)
  (clock : nat -> Z * Z) (st : Storage.localStorage)
  : option nat * Storage.localStorage :=
  match fetched with
  | None => (None, st)
  | Some recipe =>
      match extendedIngredients recipe with
      | None => (None, st)
      | Some l =>
          let '(_, (addedCount, st')) := fold_left (addOne clock) l (0, (0, st)) in
          (Some addedCount, st')
      end
  end.

End RecipePage.

(* ================================================================== *)
(** ** Vocabulary of the further properties *)

(** The operations on the shopping list. *)
Inductive ShopOp : Type :=
| ShopAdd (item : ItemArg) (now_id now_addedAt : Z)
| ShopRemove (itemId : Z)
| ShopToggle (itemId : Z)
| ShopClear
| ShopGenerate (clock : nat -> Z * Z)
| ShopAddIngredients (fetched : option Recipe) (clock : nat -> Z * Z).

Definition runShopOp (op : ShopOp) (st : localStorage) : localStorage :=
  match op with
  | ShopAdd item now_id now_addedAt =>
      snd (addToShoppingList item now_id now_addedAt st)
  | ShopRemove itemId => removeFromShoppingList itemId st
  | ShopToggle itemId => snd (toggleShoppingItem itemId st)
  | ShopClear => clearShoppingList st
  | ShopGenerate clock => ShoppingPage.generateShoppingList clock st
  | ShopAddIngredients fetched clock =>
      snd (RecipePage.addIngredientsToShoppingList fetched clock st)
  end.

(** The lowercased names of a shopping list. *)
Definition lowerNames (l : list ShoppingItem) : list string :=
  map (fun i => Js.toLowerCase (item_name i)) l.

(** No two items of the list bear the same name up to case. *)
Definition distinctNames (l : list ShoppingItem) : Prop :=
  NoDup (lowerNames l).

(** The recent searches a store may hold after the operations: no blank
    entry, no repetition, ten entries at most. *)
Definition tidySearches (l : list string) : Prop :=
  NoDup l /\ (length l <= 10)%nat
  /\ Forall (fun s => JsString.trim s <> "") l.

(** The ids of the favorites. *)
Definition favoriteIds (l : list Favorites.Favorite) : list Z :=
  map Favorites.fav_id l.

(* ================================================================== *)
(** ** The categorizer *)

Lemma str_or_empty (a : option string) :
  Js.str_or a "" = match a with Some h => h | None => "" end.
Proof.
  destruct a as [s|]; simpl; trivial.
  destruct (s =? "") eqn:E; trivial.
  apply String.eqb_eq in E. now subst.
Qed.

Ltac split_includes :=
  repeat match goal with
         | |- context [Js.includes ?s ?w] =>
             destruct (Js.includes s w); cbn [orb find existsb fst snd]
         end.

Lemma categorize_firstMatch (hint : option string) :
  categorizeIngredient hint = firstMatch hint.
Proof.
  unfold categorizeIngredient, firstMatch.
  rewrite str_or_empty.
  generalize (Js.toLowerCase match hint with Some h => h | None => "" end).
  intro s. unfold categoryRules.
  cbn [find existsb fst snd].
  split_includes; reflexivity.
Qed.

(** C2.  The categorizer is a total function of a hint that may be
    absent: it lowercases the hint (an absent hint counts as the empty
    string), tries the six rules in the order produce, meat, dairy, grains,
    spices, pantry, and answers the category of the first rule one of whose
    words occurs in the hint, ["other"] when none does.  "Fresh Produce" is
    produce, "Seafood Oil" is meat, the empty and the absent hint are
    other, and "CHEESE" is dairy. *)
Theorem categorize_priority_order :
  (forall hint : option string, categorizeIngredient hint = firstMatch hint)
  /\ map fst categoryRules
     = ["produce"; "meat"; "dairy"; "grains"; "spices"; "pantry"]
  /\ categorizeIngredient (Some "Fresh Produce") = "produce"
  /\ categorizeIngredient (Some "Seafood Oil") = "meat"
  /\ categorizeIngredient (Some "") = "other"
  /\ categorizeIngredient None = "other"
  /\ categorizeIngredient (Some "CHEESE") = "dairy".
Proof.
  split; [exact categorize_firstMatch|].
  repeat split; reflexivity.
Qed.

(* ================================================================== *)
(** ** Objects *)

Section ObjectFacts.

Context {V : Type}.
Implicit Types (o : Js.obj V) (k : string) (v : V).

Lemma own_get_In o k v : Js.own_get o k = Some v -> In (k, v) o.
Proof.
  induction o as [|[k' v'] o IH]; simpl; [discriminate|].
  destruct (k' =? k) eqn:E.
  - apply String.eqb_eq in E. intros [= ->]. subst. now left.
  - intros H. right. now apply IH.
Qed.

Lemma own_get_of_key o k : In k (Js.keys o) -> Js.own_get o k <> None.
Proof.
  induction o as [|[k' v'] o IH]; simpl; [tauto|].
  intros [->|H].
  - now rewrite String.eqb_refl.
  - destruct (k' =? k); [discriminate|now apply IH].
Qed.

Lemma own_get_key o k v : Js.own_get o k = Some v -> In k (Js.keys o).
Proof.
  intros H. apply own_get_In in H.
  change k with (fst (k, v)). now apply in_map.
Qed.

Lemma keys_replace o k v : Js.keys (Js.replace k v o) = Js.keys o.
Proof.
  induction o as [|[k' v'] o IH]; simpl; trivial.
  destruct (k' =? k); simpl; [reflexivity|now rewrite IH].
Qed.

Lemma own_get_replace_same o k v :
  Js.own_get o k <> None -> Js.own_get (Js.replace k v o) k = Some v.
Proof.
  induction o as [|[k' v'] o IH]; simpl; [congruence|].
  destruct (k' =? k) eqn:E; simpl; rewrite E; auto.
Qed.

Lemma own_get_replace_other o k k' v :
  k' <> k -> Js.own_get (Js.replace k v o) k' = Js.own_get o k'.
Proof.
  intros N. induction o as [|[k0 v0] o IH]; simpl; trivial.
  destruct (k0 =? k) eqn:E; simpl.
  - apply String.eqb_eq in E. subst k0.
    destruct (k =? k') eqn:E'; trivial.
    apply String.eqb_eq in E'. congruence.
  - now rewrite IH.
Qed.

Lemma Forall_replace (P : V -> Prop) o k v :
  Forall (fun kv => P (snd kv)) o -> P v ->
  Forall (fun kv => P (snd kv)) (Js.replace k v o).
Proof.
  intros H Pv. induction H as [|[k0 v0] o H0 H IH]; simpl; [constructor|].
  destruct (k0 =? k); constructor; auto.
Qed.

Lemma keys_insert_index o n k v :
  incl (Js.keys o) (Js.keys (Js.insert_index n k v o)).
Proof.
  induction o as [|[k' v'] o IH]; simpl; [apply incl_nil_l|].
  destruct (Js.array_index k') as [n'|].
  - destruct (n' <? n)%N; simpl.
    + apply incl_cons; [now left|]. now apply incl_tl.
    + apply incl_tl, incl_refl.
  - apply incl_tl, incl_refl.
Qed.

Lemma keys_define o k v : incl (Js.keys o) (Js.keys (Js.define k v o)).
Proof.
  unfold Js.define. destruct (Js.own_get o k).
  - rewrite keys_replace. apply incl_refl.
  - destruct (Js.array_index k).
    + apply keys_insert_index.
    + unfold Js.keys. rewrite map_app. apply incl_appl, incl_refl.
Qed.

Lemma keys_assign o k v : incl (Js.keys o) (Js.keys (Js.assign k v o)).
Proof.
  unfold Js.assign. destruct (k =? "__proto__");
    [apply incl_refl|apply keys_define].
Qed.

(** Assigning to a property the object owns overwrites it in place. *)
Lemma assign_present o k v :
  In k (Js.keys o) -> k <> "__proto__" ->
  Js.assign k v o = Js.replace k v o.
Proof.
  intros H N. unfold Js.assign, Js.define.
  apply String.eqb_neq in N. rewrite N.
  apply own_get_of_key in H. destruct (Js.own_get o k); congruence.
Qed.

End ObjectFacts.

(* ================================================================== *)
(** ** The meal plan *)

Lemma strings_eqb_eq (a b : list string) : strings_eqb a b = true <-> a = b.
Proof.
  revert b. induction a as [|x a IH]; intros [|y b]; simpl;
    try (split; [discriminate|congruence]); [tauto|].
  rewrite andb_true_iff, String.eqb_eq, IH.
  split; [intros [-> ->]; reflexivity|intros [= -> ->]; auto].
Qed.

Lemma fullGrid_spec (p : MealPlan) :
  fullGrid p = true <-> planOk threeMeals p.
Proof.
  unfold fullGrid, planOk, threeMeals.
  rewrite andb_true_iff, strings_eqb_eq, forallb_forall, Forall_forall.
  split; intros [K H]; split; trivial; intros [k d] I.
  - simpl. apply strings_eqb_eq. exact (H _ I).
  - apply strings_eqb_eq. exact (H _ I).
Qed.

(** What the plan is after an add or a remove, whatever the day. *)
Lemma getMealPlan_addMeal day mealType recipe st :
  getMealPlan (snd (addMealToPlan day mealType recipe st))
  = writeSlot (getMealPlan st) day mealType (Some recipe)
      (Js.get (getMealPlan st) day).
Proof.
  unfold addMealToPlan. destruct (Js.get (getMealPlan st) day); reflexivity.
Qed.

Lemma getMealPlan_removeMeal day mealType st :
  getMealPlan (snd (removeMealFromPlan day mealType st))
  = writeSlot (getMealPlan st) day mealType None
      (Js.get (getMealPlan st) day).
Proof.
  unfold removeMealFromPlan. destruct (Js.get (getMealPlan st) day); reflexivity.
Qed.

Lemma get_own (p : MealPlan) day d :
  Js.get p day = Js.OwnValue d -> Js.own_get p day = Some d.
Proof.
  unfold Js.get. destruct (Js.own_get p day); [congruence|].
  destruct (existsb _ _); discriminate.
Qed.

Section PlanInvariant.

(** A property of day plans that the empty day has and that an assignment
    keeps, for the meal types [okType] allows. *)
Variable okDay : DayPlan -> Prop.
Variable okType : string -> Prop.
Hypothesis okDay_empty : okDay emptyDay.
Hypothesis okDay_assign :
  forall m v d, okType m -> okDay d -> okDay (Js.assign m v d).
Hypothesis okType_mealTypes : Forall okType mealTypes.

Lemma planOk_empty : planOk okDay emptyPlan.
Proof.
  split; [reflexivity|]. unfold emptyPlan.
  repeat constructor; exact okDay_empty.
Qed.

Lemma planOk_writeSlot p day mealType v :
  okType mealType -> planOk okDay p ->
  planOk okDay (writeSlot p day mealType v (Js.get p day)).
Proof.
  intros T [K A]. destruct (Js.get p day) as [d| |] eqn:G; simpl;
    try (split; assumption).
  apply get_own, own_get_In in G.
  split.
  - now rewrite keys_replace.
  - apply Forall_replace; trivial.
    apply okDay_assign; trivial.
    rewrite Forall_forall in A. exact (A _ G).
Qed.

Lemma planOk_fillSlot recipes day mealType acc :
  okType mealType -> planOk okDay (getMealPlan (snd acc)) ->
  planOk okDay (getMealPlan (snd (fillSlot recipes day acc mealType))).
Proof.
  intros T H. destruct acc as [i st]. unfold fillSlot.
  destruct (nth_error recipes i); trivial.
  cbn [snd] in *. rewrite getMealPlan_addMeal.
  now apply planOk_writeSlot.
Qed.

Lemma planOk_fillDay recipes day acc :
  planOk okDay (getMealPlan (snd acc)) ->
  planOk okDay (getMealPlan (snd (fillDay recipes acc day))).
Proof.
  unfold fillDay. revert acc.
  generalize okType_mealTypes. generalize mealTypes as ms.
  induction ms as [|m ms IH]; intros T acc H; simpl; trivial.
  inversion T; subst. apply IH; trivial. now apply planOk_fillSlot.
Qed.

Lemma planOk_fill recipes (ds : list string) acc :
  planOk okDay (getMealPlan (snd acc)) ->
  planOk okDay (getMealPlan (snd (fold_left (fillDay recipes) ds acc))).
Proof.
  revert acc. induction ds as [|d ds IH]; intros acc H; simpl; trivial.
  apply IH. now apply planOk_fillDay.
Qed.

Lemma planOk_generateAuto configured recipes st :
  planOk okDay (getMealPlan st) ->
  planOk okDay (getMealPlan (generateAutoMealPlan configured recipes st)).
Proof.
  intros H. unfold generateAutoMealPlan.
  destruct configured; cbn [negb]; trivial.
  destruct recipes as [|r recipes]; [exact planOk_empty|].
  apply planOk_fill. exact planOk_empty.
Qed.

(** Every operation whose meal type [okType] allows keeps the
    invariant. *)
Lemma planOk_runOp op st :
  match op with
  | SetMeal _ m _ | ClearMeal _ m => okType m
  | _ => True
  end ->
  planOk okDay (getMealPlan st) -> planOk okDay (getMealPlan (runOp op st)).
Proof.
  intros T H. destruct op as [|day m r|day m| |c rs]; cbn [runOp]; trivial.
  - rewrite getMealPlan_addMeal. now apply planOk_writeSlot.
  - rewrite getMealPlan_removeMeal. now apply planOk_writeSlot.
  - exact planOk_empty.
  - now apply planOk_generateAuto.
Qed.

End PlanInvariant.

Lemma threeMeals_assign m v (d : DayPlan) :
  In m mealTypes -> threeMeals d -> threeMeals (Js.assign m v d).
Proof.
  unfold threeMeals. intros I K.
  rewrite assign_present, keys_replace; trivial.
  - now rewrite K.
  - simpl in I. intuition (subst; discriminate).
Qed.

Lemma atLeastThreeMeals_assign m v (d : DayPlan) :
  True -> atLeastThreeMeals d -> atLeastThreeMeals (Js.assign m v d).
Proof.
  unfold atLeastThreeMeals. intros _ H.
  eapply incl_tran; [exact H|apply keys_assign].
Qed.

Lemma namesMealType_In op :
  namesMealType op = true ->
  match op with
  | SetMeal _ m _ | ClearMeal _ m => In m mealTypes
  | _ => True
  end.
Proof.
  destruct op; simpl; trivial; intros H;
    repeat (apply orb_true_iff in H; destruct H as [H|H];
            [apply String.eqb_eq in H; subst; simpl; tauto|]);
    discriminate.
Qed.

Lemma reachableTyped_threeMeals st :
  reachableTyped st -> planOk threeMeals (getMealPlan st).
Proof.
  induction 1 as [l|op st T _ IH].
  - apply (planOk_empty threeMeals). reflexivity.
  - apply (planOk_runOp threeMeals (fun m => In m mealTypes)); trivial.
    + reflexivity.
    + exact threeMeals_assign.
    + apply Forall_forall. trivial.
    + now apply namesMealType_In.
Qed.

Lemma reachable_atLeastThreeMeals st :
  reachable st -> planOk atLeastThreeMeals (getMealPlan st).
Proof.
  induction 1 as [l|op st _ IH].
  - apply (planOk_empty atLeastThreeMeals). apply incl_refl.
  - apply (planOk_runOp atLeastThreeMeals (fun _ => True)); trivial.
    + apply incl_refl.
    + exact atLeastThreeMeals_assign.
    + apply Forall_forall. trivial.
    + destruct op; trivial.
Qed.

(** The slot names of a plan depend on its keys only. *)
Lemma slot_names (p : MealPlan) :
  map fst (slots p)
  = flat_map (fun kd => map (pair (fst kd)) (Js.keys (snd kd))) p.
Proof.
  unfold slots. induction p as [|[day d] p IH]; simpl; trivial.
  rewrite map_app, IH. f_equal.
  unfold Js.keys. rewrite !map_map. apply map_ext. now intros [m v].
Qed.

Lemma fullGrid_slotNames (p : MealPlan) :
  planOk threeMeals p -> map fst (slots p) = slotNames.
Proof.
  intros [K A]. rewrite slot_names.
  assert (E : forall q : MealPlan,
             Forall (fun kd => threeMeals (snd kd)) q ->
             flat_map (fun kd => map (pair (fst kd)) (Js.keys (snd kd))) q
             = flat_map (fun day => map (pair day) mealTypes) (Js.keys q)).
  { induction 1 as [|[day d] q H _ IH]; simpl; trivial.
    rewrite IH. simpl in H. unfold threeMeals in H. now rewrite H. }
  rewrite (E _ A), K. reflexivity.
Qed.

Section DefineFacts.

Context {V : Type}.
Implicit Types (o : Js.obj V) (k : string) (v : V).

Lemma own_get_absent o k : ~ In k (Js.keys o) -> Js.own_get o k = None.
Proof.
  intros N. destruct (Js.own_get o k) eqn:E; trivial.
  apply own_get_key in E. contradiction.
Qed.

Lemma own_get_app_other o k k' v :
  k' <> k -> Js.own_get (o ++ [(k, v)]) k' = Js.own_get o k'.
Proof.
  intros N. induction o as [|[k0 v0] o IH]; simpl.
  - destruct (k =? k') eqn:E; trivial.
    apply String.eqb_eq in E. congruence.
  - now rewrite IH.
Qed.

Lemma own_get_app_same o k v :
  Js.own_get o k = None -> Js.own_get (o ++ [(k, v)]) k = Some v.
Proof.
  induction o as [|[k0 v0] o IH]; simpl.
  - now rewrite String.eqb_refl.
  - destruct (k0 =? k); [discriminate|exact IH].
Qed.

Lemma own_get_insert_other o n k k' v :
  k' <> k -> Js.own_get (Js.insert_index n k v o) k' = Js.own_get o k'.
Proof.
  intros N.
  assert (F : (k =? k') = false) by (apply String.eqb_neq; congruence).
  induction o as [|[k0 v0] o IH]; simpl; [now rewrite F|].
  destruct (Js.array_index k0) as [n0|]; [destruct (n0 <? n)%N|]; simpl;
    rewrite ?F, ?IH; reflexivity.
Qed.

Lemma own_get_insert_same o n k v :
  Js.array_index k = Some n ->
  Js.own_get (Js.insert_index n k v o) k = Some v.
Proof.
  intros A. induction o as [|[k0 v0] o IH]; simpl.
  - now rewrite String.eqb_refl.
  - destruct (Js.array_index k0) as [n0|] eqn:A0;
      [destruct (n0 <? n)%N eqn:L|]; simpl; rewrite ?String.eqb_refl; trivial.
    destruct (k0 =? k) eqn:E; trivial.
    apply String.eqb_eq in E. subst k0.
    rewrite A in A0. injection A0 as <-.
    rewrite N.ltb_irrefl in L. discriminate.
Qed.

Lemma own_get_define_same o k v :
  Js.own_get (Js.define k v o) k = Some v.
Proof.
  unfold Js.define. destruct (Js.own_get o k) eqn:E.
  - apply own_get_replace_same. congruence.
  - destruct (Js.array_index k) eqn:A.
    + now apply own_get_insert_same.
    + now apply own_get_app_same.
Qed.

Lemma own_get_assign_other o k k' v :
  k' <> k -> Js.own_get (Js.assign k v o) k' = Js.own_get o k'.
Proof.
  intros N. unfold Js.assign, Js.define.
  destruct (k =? "__proto__"); trivial.
  destruct (Js.own_get o k).
  - now apply own_get_replace_other.
  - destruct (Js.array_index k).
    + now apply own_get_insert_other.
    + now apply own_get_app_other.
Qed.

Lemma own_get_assign_same o k v :
  k <> "__proto__" -> Js.own_get (Js.assign k v o) k = Some v.
Proof.
  intros N. unfold Js.assign. apply String.eqb_neq in N. rewrite N.
  apply own_get_define_same.
Qed.

End DefineFacts.

(** The slot written by an assignment on a day the plan owns, and the
    slots it leaves alone. *)
Lemma slotAt_written (p : MealPlan) day mealType v d :
  Js.own_get p day = Some d -> mealType <> "__proto__" ->
  slotAt (Js.replace day (Js.assign mealType v d) p) day mealType = Some v.
Proof.
  intros G N. unfold slotAt.
  rewrite own_get_replace_same by congruence.
  now apply own_get_assign_same.
Qed.

Lemma slotAt_untouched (p : MealPlan) day mealType v d day' mealType' :
  Js.own_get p day = Some d -> (day', mealType') <> (day, mealType) ->
  slotAt (Js.replace day (Js.assign mealType v d) p) day' mealType'
  = slotAt p day' mealType'.
Proof.
  intros G N. unfold slotAt.
  destruct (String.eqb_spec day' day) as [->|D].
  - rewrite own_get_replace_same by congruence. rewrite G.
    apply own_get_assign_other. congruence.
  - now rewrite own_get_replace_other.
Qed.

Lemma slot_names_replace (p : MealPlan) day d d' :
  Js.own_get p day = Some d -> Js.keys d' = Js.keys d ->
  map fst (slots (Js.replace day d' p)) = map fst (slots p).
Proof.
  intros G K. rewrite !slot_names.
  induction p as [|[k0 d0] p IH]; simpl in *; trivial.
  destruct (k0 =? day) eqn:E; simpl.
  - injection G as ->. now rewrite K.
  - now rewrite IH.
Qed.

Lemma reachable_days st : reachable st -> Js.keys (getMealPlan st) = days.
Proof. intros H. now apply reachable_atLeastThreeMeals in H as [K _]. Qed.

(** In a reachable plan every slot of the grid exists. *)
Lemma reachable_slot st day mealType :
  reachable st -> In day days -> In mealType mealTypes ->
  exists d, Js.get (getMealPlan st) day = Js.OwnValue d
            /\ Js.own_get (getMealPlan st) day = Some d
            /\ In mealType (Js.keys d).
Proof.
  intros R D M. apply reachable_atLeastThreeMeals in R as [K A].
  rewrite <- K in D. apply own_get_of_key in D.
  destruct (Js.own_get (getMealPlan st) day) as [d|] eqn:G; [|congruence].
  exists d. unfold Js.get. rewrite G. repeat split.
  apply own_get_In in G. rewrite Forall_forall in A.
  apply (A _ G). exact M.
Qed.

(** An unknown day that [Object.prototype] does not know either is
    refused, and nothing is written. *)
Lemma addMeal_unknown_day st day mealType recipe :
  reachable st -> ~ In day days -> ~ In day Js.object_prototype_names ->
  addMealToPlan day mealType recipe st = (false, st).
Proof.
  intros R D P. unfold addMealToPlan, Js.get.
  rewrite own_get_absent by now rewrite (reachable_days st R).
  destruct (existsb (String.eqb day) Js.object_prototype_names) eqn:E; trivial.
  apply existsb_exists in E as (x & I & E).
  apply String.eqb_eq in E. subst x. contradiction.
Qed.

(** A day of the week is accepted and its slot overwritten, whatever it
    held. *)
Lemma addMeal_valid_day st day mealType recipe :
  reachable st -> In day days -> mealType <> "__proto__" ->
  let result := addMealToPlan day mealType recipe st in
  fst result = true
  /\ MEAL_PLAN (snd result) = Some (getMealPlan (snd result))
  /\ slotAt (getMealPlan (snd result)) day mealType = Some (Some recipe)
  /\ forall day' mealType',
       (day', mealType') <> (day, mealType) ->
       slotAt (getMealPlan (snd result)) day' mealType'
       = slotAt (getMealPlan st) day' mealType'.
Proof.
  intros R D N.
  destruct (reachable_slot st day "lunch" R D) as (d & G & O & _);
    [simpl; tauto|].
  cbv zeta. unfold addMealToPlan. rewrite G. cbn [fst snd writeSlot].
  repeat split.
  - now apply slotAt_written.
  - intros day' mealType' F. now apply slotAt_untouched.
Qed.

(** C4, as stated, fails: an add whose meal type is none of the three
    creates a slot, so a reachable plan can have 22 slots. *)
Lemma brunch_slot_breaks_grid :
  ~ alwaysFullGrid
  /\ reachable (runOp (SetMeal "monday" "brunch" pancakes) freshStorage)
  /\ length (slots (getMealPlan
                      (runOp (SetMeal "monday" "brunch" pancakes) freshStorage)))
     = 22.
Proof.
  assert (R : reachable (runOp (SetMeal "monday" "brunch" pancakes) freshStorage))
    by apply reachable_step, reachable_fresh.
  split; [|split; [exact R|reflexivity]].
  intros H. specialize (H _ R). vm_compute in H. discriminate.
Qed.

(** C4, amended.  Every plan reached through get, setMeal, clearMeal,
    clearAll and autoGenerate, when setMeal and clearMeal are given one of
    the three meal types (and any day), has exactly the 21 slots: the seven
    days, each with breakfast, lunch and dinner, every slot being empty or
    holding one recipe. *)
Theorem typed_operations_keep_21_slots (st : localStorage) :
  reachableTyped st ->
  fullGrid (getMealPlan st) = true
  /\ map fst (slots (getMealPlan st)) = slotNames
  /\ length (slots (getMealPlan st)) = 21.
Proof.
  intros R. apply reachableTyped_threeMeals in R.
  assert (N := fullGrid_slotNames _ R).
  repeat split.
  - now apply fullGrid_spec.
  - exact N.
  - rewrite <- (length_map fst), N. reflexivity.
Qed.

Lemma typed_operations_keep_21_slots_witness :
  let st := runOp (ClearMeal "sunday" "dinner")
              (runOp (SetMeal "tuesday" "lunch" pancakes) freshStorage) in
  fullGrid (getMealPlan st) = true
  /\ map fst (slots (getMealPlan st)) = slotNames
  /\ length (slots (getMealPlan st)) = 21.
Proof.
  apply (typed_operations_keep_21_slots
           (runOp (ClearMeal "sunday" "dinner")
              (runOp (SetMeal "tuesday" "lunch" pancakes) freshStorage))).
  apply typed_step; [reflexivity|].
  apply typed_step; [reflexivity|].
  apply typed_fresh.
Defined.

(** C7, at the failing input.  The day "constructor" is not a day of the
    week, yet on every reachable plan an add for it reports success; the
    plan it saves is the plan it read. *)
Theorem addMeal_inherited_day_reports_success
  (st : localStorage) (recipe : Recipe) :
  reachable st ->
  ~ In "constructor" days
  /\ fst (addMealToPlan "constructor" "lunch" recipe st) = true
  /\ getMealPlan (snd (addMealToPlan "constructor" "lunch" recipe st))
     = getMealPlan st.
Proof.
  intros R.
  assert (D : ~ In "constructor" days)
    by (simpl; intuition discriminate).
  split; [exact D|].
  unfold addMealToPlan, Js.get.
  rewrite own_get_absent by now rewrite (reachable_days st R).
  split; reflexivity.
Qed.

Lemma addMeal_inherited_day_reports_success_witness :
  ~ In "constructor" days
  /\ fst (addMealToPlan "constructor" "lunch" pancakes freshStorage) = true
  /\ getMealPlan (snd (addMealToPlan "constructor" "lunch" pancakes freshStorage))
     = getMealPlan freshStorage.
Proof.
  apply (addMeal_inherited_day_reports_success freshStorage pancakes).
  apply reachable_fresh.
Defined.

(** The add and the remove of a slot of the grid: the slot takes the value
    written, every other slot keeps its value, no slot appears or
    disappears. *)
Lemma write_grid_slot st day mealType v :
  reachable st -> In day days -> In mealType mealTypes ->
  let p := getMealPlan st in
  let p' := writeSlot p day mealType v (Js.get p day) in
  slotAt p' day mealType = Some v
  /\ (forall day' mealType',
        (day', mealType') <> (day, mealType) ->
        slotAt p' day' mealType' = slotAt p day' mealType')
  /\ map fst (slots p') = map fst (slots p).
Proof.
  intros R D M.
  destruct (reachable_slot st day mealType R D M) as (d & G & O & K).
  assert (N : mealType <> "__proto__")
    by (simpl in M; intuition (subst; discriminate)).
  cbv zeta. rewrite G. cbn [writeSlot]. repeat split.
  - now apply slotAt_written.
  - intros day' mealType' F. now apply slotAt_untouched.
  - apply (slot_names_replace _ _ d); trivial.
    rewrite assign_present by assumption. apply keys_replace.
Qed.

(** C8.  On every reachable plan, after setMeal('tuesday','lunch', R) the
    plan read back holds R in the tuesday-lunch slot; after the
    clearMeal('tuesday','lunch') that follows, that slot is empty; both
    times every other slot holds what it held before and the slots are the
    same slots. *)
Theorem tuesday_lunch_round_trip (st : localStorage) (R : Recipe) :
  reachable st ->
  let st1 := snd (addMealToPlan "tuesday" "lunch" R st) in
  let st2 := snd (removeMealFromPlan "tuesday" "lunch" st1) in
  fst (addMealToPlan "tuesday" "lunch" R st) = true
  /\ fst (removeMealFromPlan "tuesday" "lunch" st1) = true
  /\ slotAt (getMealPlan st1) "tuesday" "lunch" = Some (Some R)
  /\ slotAt (getMealPlan st2) "tuesday" "lunch" = Some None
  /\ (forall day mealType,
        (day, mealType) <> ("tuesday", "lunch") ->
        slotAt (getMealPlan st1) day mealType = slotAt (getMealPlan st) day mealType
        /\ slotAt (getMealPlan st2) day mealType
           = slotAt (getMealPlan st) day mealType)
  /\ map fst (slots (getMealPlan st1)) = map fst (slots (getMealPlan st))
  /\ map fst (slots (getMealPlan st2)) = map fst (slots (getMealPlan st)).
Proof.
  intros H. cbv zeta.
  assert (D : In "tuesday" days) by (simpl; tauto).
  assert (M : In "lunch" mealTypes) by (simpl; tauto).
  assert (H1 : reachable (snd (addMealToPlan "tuesday" "lunch" R st)))
    by exact (reachable_step (SetMeal "tuesday" "lunch" R) st H).
  destruct (write_grid_slot st "tuesday" "lunch" (Some R) H D M)
    as (S1 & F1 & N1).
  destruct (write_grid_slot _ "tuesday" "lunch" None H1 D M) as (S2 & F2 & N2).
  rewrite <- getMealPlan_removeMeal in S2, F2, N2.
  rewrite <- getMealPlan_addMeal in S1, F1, N1.
  split; [|split].
  - destruct (reachable_slot st "tuesday" "lunch" H D M) as (d & G & _).
    unfold addMealToPlan. now rewrite G.
  - destruct (reachable_slot _ "tuesday" "lunch" H1 D M) as (d & G & _).
    unfold removeMealFromPlan. now rewrite G.
  - repeat split; trivial.
    + now apply F1.
    + rewrite F2 by assumption. now apply F1.
    + now rewrite N2.
Qed.

Lemma tuesday_lunch_round_trip_witness :
  let st := flourStorage in
  let R := shortcrust in
  let st1 := snd (addMealToPlan "tuesday" "lunch" R st) in
  let st2 := snd (removeMealFromPlan "tuesday" "lunch" st1) in
  fst (addMealToPlan "tuesday" "lunch" R st) = true
  /\ fst (removeMealFromPlan "tuesday" "lunch" st1) = true
  /\ slotAt (getMealPlan st1) "tuesday" "lunch" = Some (Some R)
  /\ slotAt (getMealPlan st2) "tuesday" "lunch" = Some None
  /\ (forall day mealType,
        (day, mealType) <> ("tuesday", "lunch") ->
        slotAt (getMealPlan st1) day mealType = slotAt (getMealPlan st) day mealType
        /\ slotAt (getMealPlan st2) day mealType
           = slotAt (getMealPlan st) day mealType)
  /\ map fst (slots (getMealPlan st1)) = map fst (slots (getMealPlan st))
  /\ map fst (slots (getMealPlan st2)) = map fst (slots (getMealPlan st)).
Proof.
  apply (tuesday_lunch_round_trip flourStorage shortcrust).
  unfold flourStorage.
  apply (reachable_step (SetMeal "thursday" "dinner" shortcrust)).
  apply (reachable_step (SetMeal "monday" "lunch" flatbread)).
  apply (reachable_step (SetMeal "monday" "breakfast" pancakes)).
  apply reachable_fresh.
Defined.

(** C6.  Whatever the plan was, once the recipes have been fetched
    autoGenerate leaves a plan that depends on the recipes only: for k
    recipes, k at most 21, the first k slots in day-major, meal-minor order
    hold the recipes in sequence and the other 21 - k slots are empty. *)
Theorem autoGenerate_fills_in_order
  (st : localStorage) (recipes : list Recipe) :
  length recipes <= 21 ->
  let st' := generateAutoMealPlan true recipes st in
  fullGrid (getMealPlan st') = true
  /\ slots (getMealPlan st')
     = combine slotNames
         (map Some recipes ++ repeat None (21 - length recipes)).
Proof.
  intros L. cbv zeta.
  do 22 (destruct recipes as [|? recipes];
         [split; vm_compute; reflexivity|]).
  simpl in L. lia.
Qed.

Lemma autoGenerate_fills_in_order_witness :
  let st' := generateAutoMealPlan true tenRecipes flourStorage in
  fullGrid (getMealPlan st') = true
  /\ slots (getMealPlan st')
     = combine slotNames
         (map Some tenRecipes ++ repeat None (21 - length tenRecipes)).
Proof.
  apply (autoGenerate_fills_in_order flourStorage tenRecipes).
  simpl. lia.
Defined.

(* ================================================================== *)
(** ** The aggregator *)

Section MapFacts.

Context {V : Type}.
Implicit Types (m : JsMap.t V) (k n : string) (v : V).

(** The entries of a map stored under the key [n]. *)
Local Abbreviation keyed n m :=
  (filter (fun kv : string * V => fst kv =? n) m) (only parsing).

Lemma has_keyed m k : JsMap.has m k = false <-> keyed k m = [].
Proof.
  induction m as [|[k' v'] m IH]; simpl; [tauto|].
  destruct (k' =? k); simpl; [split; discriminate|exact IH].
Qed.

Lemma has_keys m k :
  JsMap.has m k = existsb (fun k' => k' =? k) (map fst m).
Proof.
  induction m as [|[k' v'] m IH]; simpl; trivial. now rewrite IH.
Qed.

Lemma set_absent m k v : JsMap.has m k = false -> JsMap.set k v m = m ++ [(k, v)].
Proof.
  induction m as [|[k' v'] m IH]; simpl; trivial.
  destruct (k' =? k); simpl; [discriminate|].
  intros H. now rewrite IH.
Qed.

Lemma keys_update m k (f : V -> V) : map fst (JsMap.update k f m) = map fst m.
Proof.
  induction m as [|[k' v'] m IH]; simpl; trivial.
  destruct (k' =? k); simpl; [reflexivity|now rewrite IH].
Qed.

Lemma keyed_update_other m k n (f : V -> V) :
  (k =? n) = false -> keyed n (JsMap.update k f m) = keyed n m.
Proof.
  intros N. induction m as [|[k' v'] m IH]; simpl; trivial.
  destruct (k' =? k) eqn:E; simpl.
  - apply String.eqb_eq in E. subst k'. now rewrite N.
  - now rewrite IH.
Qed.

Lemma keyed_update_same m k (f : V -> V) v :
  keyed k m = [(k, v)] -> keyed k (JsMap.update k f m) = [(k, f v)].
Proof.
  induction m as [|[k' v'] m IH]; simpl; [discriminate|].
  destruct (k' =? k) eqn:E; simpl; rewrite E.
  - intros [= -> -> H]. now rewrite H.
  - exact IH.
Qed.

Lemma keyed_app m m' n : keyed n (m ++ m') = keyed n m ++ keyed n m'.
Proof. apply filter_app. Qed.

End MapFacts.

Lemma sumAmounts_app (first : Ingredient) (others : list Ingredient)
  (x : Ingredient) :
  sumAmounts (first :: others ++ [x])
  = PrimFloat.add (sumAmounts (first :: others))
      (Js.num_or_zero (ing_amount x)).
Proof. unfold sumAmounts. now rewrite fold_left_app. Qed.

Lemma named_app (n : string) (l : list Ingredient) (x : Ingredient) :
  named n (l ++ [x]) = named n l ++ (if ing_name x =? n then [x] else []).
Proof. unfold named. rewrite filter_app. reflexivity. Qed.

(** The map the aggregator builds from a sequence of ingredients holds,
    under each name, the merge of the ingredients of that name. *)
Lemma aggregate_keyed (l : list Ingredient) (n : string) :
  filter (fun kv => fst kv =? n) (fold_left addIngredient l JsMap.empty)
  = match named n l with
    | [] => []
    | i :: r => [(n, mergedEntry n i (i :: r))]
    end.
Proof.
  revert n. induction l as [|x l IH] using rev_ind; intros n; [reflexivity|].
  rewrite fold_left_app, named_app. cbn [fold_left].
  set (m := fold_left addIngredient l JsMap.empty) in *.
  unfold addIngredient.
  destruct (JsMap.has m (ing_name x)) eqn:H.
  - destruct (ing_name x =? n) eqn:E.
    + apply String.eqb_eq in E. subst n.
      assert (K := IH (ing_name x)).
      destruct (named (ing_name x) l) as [|i r] eqn:Nm.
      * apply has_keyed in K. congruence.
      * rewrite (keyed_update_same _ _ _ _ K). cbn [app].
        unfold mergedEntry. cbn [agg_name agg_category agg_amount agg_unit
                                 agg_checked].
        rewrite sumAmounts_app. reflexivity.
    + rewrite keyed_update_other by exact E. rewrite app_nil_r. apply IH.
  - rewrite set_absent by exact H. rewrite filter_app. cbn [filter fst].
    destruct (ing_name x =? n) eqn:E.
    + apply String.eqb_eq in E. subst n.
      apply has_keyed in H. rewrite H, app_nil_l.
      assert (K := IH (ing_name x)). rewrite H in K.
      destruct (named (ing_name x) l) as [|i r]; [|discriminate].
      reflexivity.
    + rewrite !app_nil_r. apply IH.
Qed.

(** Each entry of that map is stored under its own name. *)
Lemma aggregate_key_is_name (l : list Ingredient) :
  Forall (fun kv => fst kv = agg_name (snd kv))
    (fold_left addIngredient l JsMap.empty).
Proof.
  apply Forall_forall. intros [k a] I. cbn [fst snd].
  assert (F : In (k, a)
                (filter (fun kv => fst kv =? k)
                   (fold_left addIngredient l JsMap.empty))).
  { apply filter_In. split; trivial. apply String.eqb_refl. }
  rewrite aggregate_keyed in F.
  destruct (named k l); [contradiction|].
  destruct F as [[= <-]|[]]. reflexivity.
Qed.

(** The two nested loops amount to one loop over the ingredients of the
    plan. *)
Lemma fold_addMeal (meals : list Meal) (m : JsMap.t AggregatedIngredient) :
  fold_left addMeal meals m
  = fold_left addIngredient
      (flat_map (fun meal => ingredientsOf (meal_recipe meal)) meals) m.
Proof.
  revert m. induction meals as [|meal meals IH]; intros m; simpl; trivial.
  rewrite fold_left_app, IH. unfold addMeal, ingredientsOf.
  destruct (extendedIngredients (meal_recipe meal)); reflexivity.
Qed.

Lemma generate_unfold (st : localStorage) :
  generateShoppingListFromMealPlan st
  = JsMap.values (fold_left addIngredient (planIngredients st) JsMap.empty).
Proof.
  unfold generateShoppingListFromMealPlan. cbv zeta.
  now rewrite fold_addMeal.
Qed.

Lemma values_named (m : JsMap.t AggregatedIngredient) (n : string) :
  Forall (fun kv => fst kv = agg_name (snd kv)) m ->
  entriesNamed n (JsMap.values m) = map snd (filter (fun kv => fst kv =? n) m).
Proof.
  unfold entriesNamed, JsMap.values.
  induction 1 as [|[k a] m E _ IH]; simpl; trivial.
  simpl in E. subst k. destruct (agg_name a =? n); simpl; now rewrite IH.
Qed.

(** C1.  For every plan the generated list merges the ingredients by
    exact name: the entries named [n] are none when no ingredient of the
    plan is named [n], and otherwise exactly one, whose amount is the
    amount of the first ingredient named [n] to which the amounts of the
    others are added in turn, in JavaScript's addition (an absent amount
    counting for 0), and whose unit and category are those of the first of
    them.  Two slots with "flour" 200 and "flour" 150 (and a "flour"
    without amount) give one entry "flour" of amount 350, unit and category
    as first seen; "Flour" in a third slot gives an entry of its own.
    Fractions add up as well (0.5 and 0.25 give 0.75), and a sum that is no
    binary64 number is rounded (2^53 and 1 give 2^53). *)
Theorem generate_merges_by_exact_name :
  (forall (st : localStorage) (n : string),
     entriesNamed n (generateShoppingListFromMealPlan st)
     = match named n (planIngredients st) with
       | [] => []
       | first :: others => [mergedEntry n first (first :: others)]
       end)
  /\ (forall first : Ingredient,
        sumAmounts [first] = Js.num_or_zero (ing_amount first))
  /\ (forall (first : Ingredient) (others : list Ingredient) (last : Ingredient),
        sumAmounts (first :: others ++ [last])
        = PrimFloat.add (sumAmounts (first :: others))
            (Js.num_or_zero (ing_amount last)))
  /\ Js.num_or_zero None = 0%float
  /\ entriesNamed "flour" (generateShoppingListFromMealPlan flourStorage)
     = [ mkAggregated "flour" "other" 350%float "g" false ]
  /\ entriesNamed "Flour" (generateShoppingListFromMealPlan flourStorage)
     = [ mkAggregated "Flour" "other" 100%float "" false ]
  /\ map ing_unit (named "flour" (planIngredients flourStorage))
     = [Some "g"; Some "cups"; None]
  /\ map (fun i => categorizeIngredient
                     (Some (Js.str_or (ing_aisle i) (ing_name i))))
       (named "flour" (planIngredients flourStorage))
     = ["other"; "grains"; "other"]
  /\ entriesNamed "butter" (generateShoppingListFromMealPlan butterStorage)
     = [ mkAggregated "butter" "dairy" 0.75%float "cup" false ]
  /\ entriesNamed "sugar" (generateShoppingListFromMealPlan butterStorage)
     = [ mkAggregated "sugar" "other" 9007199254740992%float "g" false ].
Proof.
  split; [|split; [reflexivity|split; [exact sumAmounts_app|]]].
  - intros st n. rewrite generate_unfold.
    rewrite values_named by apply aggregate_key_is_name.
    rewrite aggregate_keyed.
    destruct (named n (planIngredients st)); reflexivity.
  - repeat split; reflexivity.
Qed.

(** *** Order of the generated list *)

Lemma existsb_filter_other (x a : string) (l : list string) :
  (a =? x) = false ->
  existsb (fun y => y =? x) (filter (fun y => negb (y =? a)) l)
  = existsb (fun y => y =? x) l.
Proof.
  intros N. induction l as [|y l IH]; simpl; trivial.
  destruct (y =? a) eqn:E; simpl.
  - apply String.eqb_eq in E. subst y. now rewrite N.
  - now rewrite IH.
Qed.

Lemma existsb_firstOccurrences (x : string) (l : list string) :
  existsb (fun y => y =? x) (firstOccurrences l) = existsb (fun y => y =? x) l.
Proof.
  induction l as [|a l IH]; simpl; trivial.
  destruct (a =? x) eqn:E; simpl; trivial.
  now rewrite existsb_filter_other.
Qed.

Lemma filter_absent (a : string) (l : list string) :
  existsb (fun y => y =? a) l = false ->
  filter (fun y => negb (y =? a)) l = l.
Proof.
  induction l as [|y l IH]; simpl; trivial.
  destruct (y =? a); simpl; [discriminate|].
  intros H. now rewrite IH.
Qed.

(** A name read after the others is new, and goes last, or is not, and
    changes nothing. *)
Lemma firstOccurrences_snoc (l : list string) (x : string) :
  firstOccurrences (l ++ [x])
  = if existsb (fun y => y =? x) l then firstOccurrences l
    else firstOccurrences l ++ [x].
Proof.
  induction l as [|a l IH]; simpl; trivial.
  rewrite IH. destruct (a =? x) eqn:E; simpl.
  - apply String.eqb_eq in E. subst a.
    destruct (existsb (fun y => y =? x) l); trivial.
    rewrite filter_app. simpl. rewrite String.eqb_refl. simpl.
    now rewrite app_nil_r.
  - destruct (existsb (fun y => y =? x) l); trivial.
    rewrite filter_app. simpl.
    rewrite String.eqb_sym, E. reflexivity.
Qed.

Lemma aggregate_keys (l : list Ingredient) :
  map fst (fold_left addIngredient l JsMap.empty)
  = firstOccurrences (map ing_name l).
Proof.
  induction l as [|x l IH] using rev_ind; [reflexivity|].
  rewrite fold_left_app, map_app. cbn [fold_left map].
  rewrite firstOccurrences_snoc.
  set (m := fold_left addIngredient l JsMap.empty) in *.
  assert (H : JsMap.has m (ing_name x)
              = existsb (fun y => y =? ing_name x) (map ing_name l))
    by now rewrite has_keys, IH, existsb_firstOccurrences.
  unfold addIngredient. rewrite H.
  destruct (existsb (fun y => y =? ing_name x) (map ing_name l)).
  - now rewrite keys_update.
  - rewrite set_absent by exact H.
    rewrite map_app, IH. reflexivity.
Qed.

Lemma generate_names (st : localStorage) :
  map agg_name (generateShoppingListFromMealPlan st)
  = firstOccurrences (map ing_name (planIngredients st)).
Proof.
  rewrite generate_unfold, <- aggregate_keys.
  generalize (aggregate_key_is_name (planIngredients st)).
  unfold JsMap.values.
  induction 1 as [|[k a] m E _ IH]; simpl; trivial.
  simpl in E. now rewrite IH, E.
Qed.

Lemma flat_map_list_prod {A B C : Type} (f : A * B -> list C)
  (a : list A) (b : list B) :
  flat_map f (list_prod a b)
  = flat_map (fun x => flat_map (fun y => f (x, y)) b) a.
Proof.
  induction a as [|x a IH]; simpl; trivial.
  rewrite flat_map_app, IH. f_equal. clear IH.
  induction b as [|y b IHb]; simpl; trivial. now rewrite IHb.
Qed.

(** The meals of a day of a full grid: its three slots, in order. *)
Lemma meals_of_day (p : MealPlan) (day : string) :
  planOk threeMeals p ->
  match Js.own_get p day with
  | Some d =>
      flat_map
        (fun mealType =>
           match Js.own_get d mealType with
           | Some (Some meal) => [mkMeal day mealType meal]
           | _ => []
           end)
        (Js.keys d)
  | None => []
  end
  = flat_map
      (fun mealType =>
         match slotAt p day mealType with
         | Some (Some meal) => [mkMeal day mealType meal]
         | _ => []
         end)
      mealTypes.
Proof.
  intros [_ A]. unfold slotAt.
  destruct (Js.own_get p day) as [d|] eqn:G; [|reflexivity].
  apply own_get_In in G. rewrite Forall_forall in A.
  specialize (A _ G). cbn [snd] in A. unfold threeMeals in A.
  now rewrite A.
Qed.

(** C5.  On every plan of the 7 x 3 grid, the meals the aggregator walks
    are the populated slots in day-major (monday to sunday), meal-minor
    (breakfast, lunch, dinner) order, the empty slots being skipped; the
    names of the generated list are the names of the ingredients of those
    recipes, each recipe giving its ingredients in listed order and a
    recipe without ingredient list giving none, every name standing where
    it is first met. *)
Theorem generate_in_traversal_order (st : localStorage) :
  fullGrid (getMealPlan st) = true ->
  getAllMealsFromPlan st
  = flat_map
      (fun slot =>
         match slotAt (getMealPlan st) (fst slot) (snd slot) with
         | Some (Some recipe) => [mkMeal (fst slot) (snd slot) recipe]
         | _ => []
         end)
      slotNames
  /\ map agg_name (generateShoppingListFromMealPlan st)
     = firstOccurrences
         (map ing_name
            (flat_map (fun meal => ingredientsOf (meal_recipe meal))
               (getAllMealsFromPlan st))).
Proof.
  intros G. apply fullGrid_spec in G. split; [|apply generate_names].
  unfold slotNames. rewrite flat_map_list_prod. cbn [fst snd].
  unfold getAllMealsFromPlan. cbv zeta.
  destruct G as [K A]. rewrite K.
  apply flat_map_ext. intros day. apply meals_of_day. now split.
Qed.

Lemma generate_in_traversal_order_witness :
  getAllMealsFromPlan flourStorage
  = flat_map
      (fun slot =>
         match slotAt (getMealPlan flourStorage) (fst slot) (snd slot) with
         | Some (Some recipe) => [mkMeal (fst slot) (snd slot) recipe]
         | _ => []
         end)
      slotNames
  /\ map agg_name (generateShoppingListFromMealPlan flourStorage)
     = firstOccurrences
         (map ing_name
            (flat_map (fun meal => ingredientsOf (meal_recipe meal))
               (getAllMealsFromPlan flourStorage))).
Proof.
  apply (generate_in_traversal_order flourStorage).
  vm_compute. reflexivity.
Defined.

(* ================================================================== *)
(** ** The shopping list *)

Lemma same_reading_repeats_id_aux :
  alreadyListed (mkItemArg "Eggs" (Some "dairy") None None None)
    (snd (addToShoppingList (mkItemArg "Milk" (Some "dairy") None None None)
            1700000000000%Z 1700000000000%Z freshStorage))
  = false.
Proof. reflexivity. Qed.

(** C9, as stated, fails: the id is the reading of the clock, and an item
    added at the reading another item was added at repeats its id. *)
Lemma same_reading_repeats_id : ~ addGivesFreshId.
Proof.
  intros H.
  destruct (H _ _ 1700000000000%Z 1700000000000%Z same_reading_repeats_id_aux)
    as (new & E & F).
  vm_compute in E. injection E as <-.
  apply F. vm_compute. now left.
Qed.

(** C9, amended.  An add whose name equals, up to case, the name of a
    listed item reports failure and leaves the list as it is; any other
    add reports success and appends exactly one item, with the given name,
    the given category ("other" when none is given), checked = false, and
    for id and timestamp the readings of the clock during the add, so that
    the id is new exactly when no listed item bears that reading.  Adding
    "Milk" and then "milk" leaves a list of length 1. *)
Theorem add_appends_unless_listed :
  (forall (st : localStorage) (item : ItemArg) (now_id now_addedAt : Z),
     if alreadyListed item st
     then addToShoppingList item now_id now_addedAt st = (false, st)
     else
       fst (addToShoppingList item now_id now_addedAt st) = true
       /\ getShoppingList (snd (addToShoppingList item now_id now_addedAt st))
          = getShoppingList st
            ++ [ {| item_id := now_id;
                    item_name := arg_name item;
                    item_category := Js.str_or (arg_category item) "other";
                    item_checked := false;
                    item_addedAt := now_addedAt |} ])
  /\ (forall t1 t2 t3 t4 : Z,
        let st1 :=
          snd (addToShoppingList (mkItemArg "Milk" (Some "dairy") None None None)
                 t1 t2 freshStorage) in
        let second :=
          addToShoppingList (mkItemArg "milk" (Some "dairy") None None None)
            t3 t4 st1 in
        fst second = false
        /\ snd second = st1
        /\ length (getShoppingList (snd second)) = 1).
Proof.
  split.
  - intros st item now_id now_addedAt.
    unfold addToShoppingList, alreadyListed.
    destruct (existsb _ (getShoppingList st)); [reflexivity|].
    split; reflexivity.
  - intros t1 t2 t3 t4. repeat split.
Qed.

(** *** Remove and toggle *)

Lemma toggleFirst_split (id : Z) (before after : list ShoppingItem)
  (i : ShoppingItem) :
  Forall (fun j => item_id j <> id) before -> item_id i = id ->
  toggleFirst id (before ++ i :: after)
  = Some (before ++ flipChecked i :: after).
Proof.
  intros B I. induction B as [|j before N _ IH]; simpl.
  - apply Z.eqb_eq in I. now rewrite I.
  - apply Z.eqb_neq in N. now rewrite N, IH.
Qed.

Lemma toggleFirst_none (id : Z) (items : list ShoppingItem) :
  Forall (fun j => item_id j <> id) items -> toggleFirst id items = None.
Proof.
  induction 1 as [|j items N _ IH]; simpl; trivial.
  apply Z.eqb_neq in N. now rewrite N, IH.
Qed.

(** C10.  A remove deletes every item whose id is the argument and keeps
    the others in their order; the id of an item is the reading of the
    clock at its add, so two items added at one reading share their id and
    one remove deletes both; a toggle flips the checked flag of the first
    item with the id and of no other. *)
Theorem remove_deletes_every_match :
  (forall (st : localStorage) (id : Z),
     getShoppingList (removeFromShoppingList id st)
     = filter (fun item => negb (item_id item =? id)%Z) (getShoppingList st)
     /\ forall item,
          In item (getShoppingList (removeFromShoppingList id st))
          <-> In item (getShoppingList st) /\ item_id item <> id)
  /\ (forall (st : localStorage) (id : Z) (before after : list ShoppingItem)
        (i : ShoppingItem),
        getShoppingList st = before ++ i :: after ->
        Forall (fun j => item_id j <> id) before -> item_id i = id ->
        toggleShoppingItem id st
        = (true, saveShoppingList (before ++ flipChecked i :: after) st))
  /\ map item_id (getShoppingList sameMillisecond)
     = [1700000000000%Z; 1700000000000%Z]
  /\ getShoppingList (removeFromShoppingList 1700000000000%Z sameMillisecond)
     = []
  /\ map (fun i => (item_name i, item_checked i))
       (getShoppingList (snd (toggleShoppingItem 1700000000000%Z sameMillisecond)))
     = [("Milk", true); ("Eggs", false)].
Proof.
  split; [|split; [|repeat split; reflexivity]].
  - intros st id. split; [reflexivity|].
    intros item. unfold removeFromShoppingList. cbn [getShoppingList
      saveShoppingList SHOPPING_LIST].
    rewrite filter_In, negb_true_iff, Z.eqb_neq. reflexivity.
  - intros st id before after i E B I. unfold toggleShoppingItem.
    now rewrite E, toggleFirst_split.
Qed.

Lemma remove_deletes_every_match_witness :
  toggleShoppingItem 1700000000000%Z sameMillisecond
  = (true,
     saveShoppingList
       ([] ++ flipChecked
                (mkShoppingItem 1700000000000%Z "Milk" "dairy" false
                   1700000000000%Z)
           :: [mkShoppingItem 1700000000000%Z "Eggs" "dairy" false
                 1700000000000%Z])
       sameMillisecond).
Proof.
  apply (proj1 (proj2 remove_deletes_every_match) sameMillisecond
           1700000000000%Z []
           [mkShoppingItem 1700000000000%Z "Eggs" "dairy" false 1700000000000%Z]
           (mkShoppingItem 1700000000000%Z "Milk" "dairy" false 1700000000000%Z)).
  - reflexivity.
  - constructor.
  - reflexivity.
Defined.

(** *** Committing a generated list *)

Lemma existsb_map_lower (n : string) (items : list ShoppingItem) :
  existsb (fun i => Js.toLowerCase (item_name i) =? n) items
  = existsb (fun s => s =? n)
      (map (fun i => Js.toLowerCase (item_name i)) items).
Proof. induction items as [|i items IH]; simpl; [|rewrite IH]; reflexivity. Qed.

(** The commit loop appends, to the list it finds, the items [written]
    describes. *)
Lemma commit_written (clock : nat -> Z * Z)
  (items : list AggregatedIngredient) (i : nat) (st : localStorage) :
  getShoppingList (snd (fold_left (ShoppingPage.commitItem clock) items (i, st)))
  = getShoppingList st
    ++ written clock i
         (map (fun s => Js.toLowerCase (item_name s)) (getShoppingList st))
         items.
Proof.
  revert i st. induction items as [|a items IH]; intros i st.
  - simpl. now rewrite app_nil_r.
  - cbn [fold_left ShoppingPage.commitItem written].
    rewrite IH. unfold addToShoppingList.
    cbn [ShoppingPage.asItemArg arg_name arg_category].
    rewrite existsb_map_lower.
    destruct (existsb _ (map _ (getShoppingList st))); cbn [snd]; trivial.
    cbn [getShoppingList saveShoppingList SHOPPING_LIST].
    rewrite map_app, <- app_assoc. reflexivity.
Qed.

(** C3, as stated, fails: two generated lists that differ in an amount and
    a unit only are stored as the same items, so neither can be read back
    from the store. *)
Lemma commit_drops_amount_and_unit : ~ storeRetainsAmountAndUnit.
Proof.
  intros (amountOf & unitOf & H).
  assert (H1 := H (fun _ => (0%Z, 0%Z)) (fst twoLoaves)).
  assert (H2 := H (fun _ => (0%Z, 0%Z)) (snd twoLoaves)).
  vm_compute in H1, H2.
  assert (N : forall a : AggregatedIngredient, [a] = [] -> False)
    by (intros a E; discriminate E).
  specialize (H1 (N _)). specialize (H2 (N _)).
  inversion H1 as [|? ? ? ? (_ & _ & _ & U1 & _) _]; subst.
  inversion H2 as [|? ? ? ? (_ & _ & _ & U2 & _) _]; subst.
  rewrite U1 in U2. discriminate U2.
Qed.

(** C3, amended.  When a non-empty generated list is committed, the list
    is cleared and the entries are written in order, an entry whose name
    equals an earlier one up to case being passed over; the item written
    for an entry holds its name, its category, checked = false and the
    readings of the clock for id and timestamp.  The amount and the unit
    are not stored. *)
Theorem commit_writes_name_and_category
  (clock : nat -> Z * Z) (st : localStorage) :
  generateShoppingListFromMealPlan st <> [] ->
  getShoppingList (ShoppingPage.generateShoppingList clock st)
  = written clock 0 [] (generateShoppingListFromMealPlan st).
Proof.
  intros N. unfold ShoppingPage.generateShoppingList. cbv zeta.
  destruct (generateShoppingListFromMealPlan st) as [|a items] eqn:G;
    [congruence|].
  unfold ShoppingPage.commitGenerated. rewrite commit_written.
  reflexivity.
Qed.

Lemma commit_writes_name_and_category_witness :
  getShoppingList
    (ShoppingPage.generateShoppingList
       (fun i => (1700000000000 + Z.of_nat i, 1700000000000 + Z.of_nat i)%Z)
       flourStorage)
  = written
      (fun i => (1700000000000 + Z.of_nat i, 1700000000000 + Z.of_nat i)%Z)
      0 [] (generateShoppingListFromMealPlan flourStorage).
Proof.
  apply (commit_writes_name_and_category
           (fun i => (1700000000000 + Z.of_nat i, 1700000000000 + Z.of_nat i)%Z)
           flourStorage).
  vm_compute. intros H. discriminate H.
Defined.

(* ================================================================== *)
(** ** Recent searches *)

Import RecentSearches.

Section Prefixes.

Context {A : Type}.

(** The first entries of a list are entries of the list. *)
Lemma taken_from (x : A) (l : list A) (n : nat) :
  In x (firstn n l) -> In x l.
Proof.
  revert n. induction l as [|y l IH]; intros [|n]; simpl; try tauto.
  intros [E|I]; [now left|right; exact (IH n I)].
Qed.

(** They are distinct when the entries of the list are. *)
Lemma taken_distinct (l : list A) (n : nat) :
  NoDup l -> NoDup (firstn n l).
Proof.
  intros H. revert n.
  induction H as [|y l N _ IH]; intros [|n]; simpl; try constructor.
  - intros I. apply N. exact (taken_from y l n I).
  - apply IH.
Qed.

End Prefixes.

Lemma filter_all {A : Type} (p : A -> bool) (l : list A) :
  Forall (fun x => p x = true) l -> filter p l = l.
Proof.
  induction 1 as [|x l P _ IH]; simpl; trivial. now rewrite P, IH.
Qed.

Lemma filter_differs (q : string) (l : list string) :
  Forall (fun s => negb (s =? q) = true) (filter (fun s => negb (s =? q)) l).
Proof. apply Forall_forall. intros s I. now apply filter_In in I. Qed.

(** X1.  The recent searches stay tidy: from a list without blank entry
    and without repetition, of at most ten entries, [addRecentSearch] gives
    such a list again; a query that is not blank comes first in it, and the
    entries that follow are earlier entries in their earlier order. *)
Theorem recent_searches_stay_tidy (query : string) (st : store) :
  tidySearches (getRecentSearches st) ->
  tidySearches (getRecentSearches (addRecentSearch query st))
  /\ (JsString.trim query <> "" ->
      exists rest,
        getRecentSearches (addRecentSearch query st) = query :: rest
        /\ rest = firstn 9 (filter (fun s => negb (s =? query))
                              (getRecentSearches st))).
Proof.
  intros (N & L & B). unfold addRecentSearch.
  destruct (query =? "") eqn:E.
  { apply String.eqb_eq in E. subst query. simpl.
    split; [repeat split; assumption|]. intros H. now elim H. }
  destruct (JsString.trim query =? "") eqn:T; cbn [orb].
  { apply String.eqb_eq in T. split; [repeat split; assumption|].
    intros H. contradiction. }
  apply String.eqb_neq in T. cbv zeta. cbn [getRecentSearches].
  split; [|intros _; eexists; split; reflexivity].
  set (f := filter (fun s => negb (s =? query)) (getRecentSearches st)).
  repeat split.
  - apply taken_distinct. constructor.
    + intros I. apply filter_In in I as [_ I].
      now rewrite String.eqb_refl in I.
    + now apply NoDup_filter.
  - apply firstn_le_length.
  - apply Forall_forall. intros s I. apply taken_from in I.
    destruct I as [<-|I]; trivial.
    apply filter_In in I as [I _]. rewrite Forall_forall in B. now apply B.
Qed.

Lemma recent_searches_stay_tidy_witness :
  tidySearches (getRecentSearches (addRecentSearch "pasta" (Some ["soup"; "pasta"])))
  /\ (JsString.trim "pasta" <> "" ->
      exists rest,
        getRecentSearches (addRecentSearch "pasta" (Some ["soup"; "pasta"]))
        = "pasta" :: rest
        /\ rest = firstn 9 (filter (fun s => negb (s =? "pasta"))
                              (getRecentSearches (Some ["soup"; "pasta"])))).
Proof.
  apply (recent_searches_stay_tidy "pasta" (Some ["soup"; "pasta"])).
  repeat split.
  - repeat constructor; simpl; intuition discriminate.
  - simpl. lia.
  - repeat constructor; vm_compute; discriminate.
Defined.

Lemma trimStart_blank (q : string) :
  forallb JsString.isWhiteSpace (list_ascii_of_string q) = true ->
  JsString.trimStart q = "".
Proof.
  induction q as [|c q IH]; simpl; trivial.
  intros H. apply andb_true_iff in H as [C H]. rewrite C. now apply IH.
Qed.

(** X2.  A query made of white space only is not recorded: the store is
    left as it is, be it never written. *)
Theorem blank_search_not_recorded (query : string) (st : store) :
  forallb JsString.isWhiteSpace (list_ascii_of_string query) = true ->
  addRecentSearch query st = st.
Proof.
  intros H. unfold addRecentSearch, JsString.trim.
  rewrite trimStart_blank by exact H. simpl.
  now rewrite orb_true_r.
Qed.

Lemma blank_search_not_recorded_witness :
  addRecentSearch "  	 " None = None.
Proof.
  apply (blank_search_not_recorded "  	 " None). reflexivity.
Defined.

(** X3.  Searching again for the latest query changes nothing: adding a
    query twice in a row leaves the store as after the first add. *)
Theorem repeated_search_is_idempotent (query : string) (st : store) :
  addRecentSearch query (addRecentSearch query st) = addRecentSearch query st.
Proof.
  unfold addRecentSearch.
  destruct ((query =? "") || (JsString.trim query =? "")) eqn:E;
    [reflexivity|].
  cbv zeta. cbn [getRecentSearches]. f_equal.
  set (f := filter (fun s => negb (s =? query)) (getRecentSearches st)).
  change (firstn 10 (query :: f)) with (query :: firstn 9 f).
  cbn [filter]. rewrite String.eqb_refl. cbn [negb].
  rewrite filter_all.
  - change (firstn 10 (query :: firstn 9 f))
      with (query :: firstn 9 (firstn 9 f)).
    now rewrite firstn_firstn.
  - apply Forall_forall. intros s I. apply taken_from in I.
    pose proof (filter_differs query (getRecentSearches st)) as F.
    rewrite Forall_forall in F. now apply F.
Qed.

(* ================================================================== *)
(** ** Favorites *)

Import Favorites.

Lemma filter_none {A : Type} (p : A -> bool) (l : list A) :
  existsb p l = false -> filter (fun x => negb (p x)) l = l.
Proof.
  induction l as [|x l IH]; simpl; trivial.
  destruct (p x); simpl; [discriminate|]. intros H. now rewrite IH.
Qed.

(** Filtering a list keeps the keys of its entries distinct. *)
Lemma kept_distinct {A B : Type} (key : A -> B) (keep : A -> bool)
  (entries : list A) :
  NoDup (map key entries) -> NoDup (map key (filter keep entries)).
Proof.
  induction entries as [|e entries IH]; simpl; trivial.
  intros H. apply NoDup_cons_iff in H as [N D].
  destruct (keep e); simpl; auto.
  apply NoDup_cons; auto.
  intros I. apply N. apply in_map_iff in I as (y & E & I).
  apply filter_In in I as [I _]. apply in_map_iff. now exists y.
Qed.

Lemma existsb_ids (recipeId : Z) (l : list Favorite) :
  existsb (fun fav => (fav_id fav =? recipeId)%Z) l = false ->
  ~ In recipeId (favoriteIds l).
Proof.
  intros E I. apply in_map_iff in I as (fav & F & I).
  assert (T : existsb (fun fav => (fav_id fav =? recipeId)%Z) l = true).
  { apply existsb_exists. exists fav. split; trivial. now apply Z.eqb_eq. }
  congruence.
Qed.

Lemma add_keeps_ids_distinct recipe now st :
  NoDup (favoriteIds (getFavorites st)) ->
  NoDup (favoriteIds (getFavorites (snd (addToFavorites recipe now st)))).
Proof.
  intros H. unfold addToFavorites. cbv zeta.
  destruct (existsb _ (getFavorites st)) eqn:E; trivial.
  cbn [snd getFavorites]. unfold favoriteIds. rewrite map_app.
  apply NoDup_app; trivial.
  - repeat constructor. simpl. tauto.
  - intros x I [<-|[]]. revert I. now apply existsb_ids.
Qed.

Lemma remove_keeps_ids_distinct recipeId st :
  NoDup (favoriteIds (getFavorites st)) ->
  NoDup (favoriteIds (getFavorites (removeFromFavorites recipeId st))).
Proof. intros H. now apply kept_distinct. Qed.

(** X4.  The favorites never hold one recipe twice: every operation on
    them (add, remove, clear, toggle) keeps the ids of the list distinct. *)
Theorem favorite_ids_stay_distinct (op : FavOp) (st : store) :
  NoDup (favoriteIds (getFavorites st)) ->
  NoDup (favoriteIds (getFavorites (runFavOp op st))).
Proof.
  intros H. destruct op as [recipe now|recipeId| |recipe now]; cbn [runFavOp].
  - now apply add_keeps_ids_distinct.
  - now apply remove_keeps_ids_distinct.
  - constructor.
  - unfold toggleFavoriteDetail. cbv zeta.
    destruct (isInFavorites (recipe_id recipe) st).
    + now apply remove_keeps_ids_distinct.
    + now apply add_keeps_ids_distinct.
Qed.

Lemma favorite_ids_stay_distinct_witness :
  NoDup (favoriteIds
           (getFavorites
              (runFavOp (FavAdd flatbread 5%Z)
                 (Some [mkFavorite pancakes 1%Z; mkFavorite shortcrust 2%Z])))).
Proof.
  apply (favorite_ids_stay_distinct (FavAdd flatbread 5%Z)
           (Some [mkFavorite pancakes 1%Z; mkFavorite shortcrust 2%Z])).
  repeat constructor; simpl; intuition discriminate.
Defined.

Lemma isIn_after_add (st : store) (recipe : Recipe) (now id : Z) :
  isInFavorites id (snd (addToFavorites recipe now st))
  = (id =? recipe_id recipe)%Z || isInFavorites id st.
Proof.
  unfold addToFavorites, isInFavorites. cbv zeta.
  destruct (existsb (fun fav => (fav_id fav =? recipe_id recipe)%Z)
              (getFavorites st)) eqn:E; cbn [snd getFavorites].
  - destruct (Z.eqb_spec id (recipe_id recipe)) as [->|N]; trivial.
  - rewrite existsb_app. cbn [existsb fav_id fav_recipe].
    rewrite orb_false_r, orb_comm. f_equal. apply Z.eqb_sym.
Qed.

Lemma isIn_after_remove (st : store) (recipeId id : Z) :
  isInFavorites id (removeFromFavorites recipeId st)
  = negb (id =? recipeId)%Z && isInFavorites id st.
Proof.
  unfold removeFromFavorites, isInFavorites. cbv zeta.
  cbn [getFavorites]. induction (getFavorites st) as [|fav l IH]; simpl.
  - now rewrite andb_false_r.
  - destruct (Z.eqb_spec (fav_id fav) recipeId) as [F|F]; simpl.
    + rewrite IH. destruct (Z.eqb_spec id recipeId) as [->|N]; simpl; trivial.
      destruct (Z.eqb_spec (fav_id fav) id); [congruence|reflexivity].
    + rewrite IH. destruct (Z.eqb_spec (fav_id fav) id) as [<-|G]; simpl.
      * destruct (Z.eqb_spec (fav_id fav) recipeId); [contradiction|].
        reflexivity.
      * reflexivity.
Qed.

(** X5.  Membership follows the operations: after an add, a recipe is a
    favorite when it is the one added or was one before, and the add
    reports failure exactly when the recipe was a favorite already; after
    a remove, a recipe is a favorite when it is not the one removed and was
    one before; after a clear none is. *)
Theorem favorite_membership (st : store) (recipe : Recipe) (now id : Z) :
  isInFavorites id (snd (addToFavorites recipe now st))
  = (id =? recipe_id recipe)%Z || isInFavorites id st
  /\ fst (addToFavorites recipe now st)
     = negb (isInFavorites (recipe_id recipe) st)
  /\ (forall recipeId,
        isInFavorites id (removeFromFavorites recipeId st)
        = negb (id =? recipeId)%Z && isInFavorites id st)
  /\ isInFavorites id (clearFavorites st) = false.
Proof.
  repeat split.
  - apply isIn_after_add.
  - unfold addToFavorites, isInFavorites. cbv zeta.
    now destruct (existsb _ (getFavorites st)).
  - intros recipeId. apply isIn_after_remove.
Qed.

(** X6.  Two toggles in a row put a recipe back where it was: it is a
    favorite afterwards exactly when it was one before, and when it was not,
    the list is the list there was. *)
Theorem toggle_favorite_twice (recipe : Recipe) (now later : Z) (st : store) :
  isInFavorites (recipe_id recipe)
    (toggleFavoriteDetail recipe later (toggleFavoriteDetail recipe now st))
  = isInFavorites (recipe_id recipe) st
  /\ (isInFavorites (recipe_id recipe) st = false ->
      getFavorites
        (toggleFavoriteDetail recipe later (toggleFavoriteDetail recipe now st))
      = getFavorites st).
Proof.
  unfold toggleFavoriteDetail at 2 4. cbv zeta.
  destruct (isInFavorites (recipe_id recipe) st) eqn:E.
  - split; [|discriminate].
    unfold toggleFavoriteDetail. cbv zeta.
    rewrite isIn_after_remove, Z.eqb_refl. cbn [negb andb].
    now rewrite isIn_after_add, Z.eqb_refl.
  - unfold toggleFavoriteDetail. cbv zeta.
    rewrite isIn_after_add, Z.eqb_refl. cbn [orb].
    split.
    + now rewrite isIn_after_remove, Z.eqb_refl.
    + intros _. unfold removeFromFavorites, addToFavorites. cbv zeta.
      unfold isInFavorites in E. cbv zeta in E. rewrite E.
      cbn [snd getFavorites]. rewrite filter_app. simpl.
      unfold fav_id at 2. simpl. rewrite Z.eqb_refl. simpl.
      rewrite app_nil_r. now apply filter_none.
Qed.

Lemma toggle_favorite_twice_witness :
  getFavorites
    (toggleFavoriteDetail flatbread 8%Z
       (toggleFavoriteDetail flatbread 7%Z (Some [mkFavorite pancakes 1%Z])))
  = getFavorites (Some [mkFavorite pancakes 1%Z]).
Proof.
  apply (proj2 (toggle_favorite_twice flatbread 7%Z 8%Z
                  (Some [mkFavorite pancakes 1%Z]))).
  reflexivity.
Defined.

(* ================================================================== *)
(** ** User preferences *)

(** X7.  A preference that is set is the preference that is read: after
    [updatePreference(key, value)], for a key other than ["__proto__"], the
    preferences hold [value] under [key], every other key holds what it
    held, and no key is lost; under the key ["__proto__"] nothing is
    stored. *)
Theorem preference_update_lookup
  (key : string) (value : Preferences.PrefValue) (st : Preferences.store) :
  (key <> "__proto__" ->
   Js.own_get
     (Preferences.getUserPreferences (Preferences.updatePreference key value st))
     key = Some value
   /\ (forall k, k <> key ->
         Js.own_get
           (Preferences.getUserPreferences
              (Preferences.updatePreference key value st)) k
         = Js.own_get (Preferences.getUserPreferences st) k)
   /\ incl (Js.keys (Preferences.getUserPreferences st))
        (Js.keys (Preferences.getUserPreferences
                    (Preferences.updatePreference key value st))))
  /\ Preferences.getUserPreferences
       (Preferences.updatePreference "__proto__" value st)
     = Preferences.getUserPreferences st.
Proof.
  split; [|reflexivity].
  intros N. unfold Preferences.updatePreference. cbv zeta.
  cbn [Preferences.saveUserPreferences Preferences.getUserPreferences].
  repeat split.
  - now apply own_get_assign_same.
  - intros k K. now apply own_get_assign_other.
  - apply keys_assign.
Qed.

Lemma preference_update_lookup_witness :
  Js.own_get
    (Preferences.getUserPreferences
       (Preferences.updatePreference "diet" (Preferences.PrefString "vegan") None))
    "diet" = Some (Preferences.PrefString "vegan")
  /\ (forall k, k <> "diet" ->
        Js.own_get
          (Preferences.getUserPreferences
             (Preferences.updatePreference "diet"
                (Preferences.PrefString "vegan") None)) k
        = Js.own_get (Preferences.getUserPreferences None) k)
  /\ incl (Js.keys (Preferences.getUserPreferences None))
       (Js.keys (Preferences.getUserPreferences
                   (Preferences.updatePreference "diet"
                      (Preferences.PrefString "vegan") None))).
Proof.
  apply (proj1 (preference_update_lookup "diet"
                  (Preferences.PrefString "vegan") None)).
  intros H. discriminate H.
Defined.

(* ================================================================== *)
(** ** More on the meal plan *)

Section ReplaceFacts.

Context {V : Type}.
Implicit Types (o : Js.obj V) (k : string) (v : V).

Lemma replace_replace o k v v' :
  Js.replace k v' (Js.replace k v o) = Js.replace k v' o.
Proof.
  induction o as [|[k0 v0] o IH]; simpl; trivial.
  destruct (k0 =? k) eqn:E; simpl; rewrite E; [reflexivity|now rewrite IH].
Qed.

Lemma replace_comm o k1 k2 v1 v2 :
  k1 <> k2 ->
  Js.replace k1 v1 (Js.replace k2 v2 o) = Js.replace k2 v2 (Js.replace k1 v1 o).
Proof.
  intros N. induction o as [|[k0 v0] o IH]; simpl; trivial.
  destruct (k0 =? k2) eqn:E2; destruct (k0 =? k1) eqn:E1; simpl;
    rewrite ?E1, ?E2; trivial.
  - apply String.eqb_eq in E1, E2. congruence.
  - now rewrite IH.
Qed.

End ReplaceFacts.

(** The day plan of [day], the empty object when there is none. *)
Local Abbreviation dayOf p day :=
  (match Js.own_get p day with Some d => d | None => [] end) (only parsing).

(** On a plan with the grid, a write to a slot of the grid overwrites that
    slot in place. *)
Lemma writeSlot_grid (p : MealPlan) day mealType v :
  planOk atLeastThreeMeals p -> In day days -> In mealType mealTypes ->
  writeSlot p day mealType v (Js.get p day)
  = Js.replace day (Js.replace mealType v (dayOf p day)) p.
Proof.
  intros [K A] D M. rewrite <- K in D. apply own_get_of_key in D.
  unfold Js.get. destruct (Js.own_get p day) as [d|] eqn:G; [|congruence].
  cbn [writeSlot]. f_equal. apply assign_present.
  - apply own_get_In in G. rewrite Forall_forall in A. apply (A _ G), M.
  - simpl in M. intuition (subst; discriminate).
Qed.

Lemma planOk_write (p : MealPlan) day mealType v :
  planOk atLeastThreeMeals p ->
  planOk atLeastThreeMeals (writeSlot p day mealType v (Js.get p day)).
Proof.
  apply (planOk_writeSlot atLeastThreeMeals (fun _ => True)
           atLeastThreeMeals_assign). exact I.
Qed.

Lemma dayOf_replace_same (p : MealPlan) day (d : DayPlan) :
  In day (Js.keys p) -> dayOf (Js.replace day d p) day = d.
Proof.
  intros I. rewrite own_get_replace_same; trivial. now apply own_get_of_key.
Qed.

(** Two writes to one slot of the grid: the second decides. *)
Lemma write_twice (p : MealPlan) day mealType v1 v2 :
  planOk atLeastThreeMeals p -> In day days -> In mealType mealTypes ->
  let p1 := writeSlot p day mealType v1 (Js.get p day) in
  writeSlot p1 day mealType v2 (Js.get p1 day)
  = writeSlot p day mealType v2 (Js.get p day).
Proof.
  intros H D M. cbv zeta.
  rewrite (writeSlot_grid _ _ _ v2 (planOk_write p day mealType v1 H) D M).
  rewrite !writeSlot_grid by assumption.
  destruct H as [K _]. rewrite dayOf_replace_same by now rewrite K.
  now rewrite !replace_replace.
Qed.

(** Two writes to two slots of the grid: the order does not matter. *)
Lemma write_comm (p : MealPlan) day1 mealType1 v1 day2 mealType2 v2 :
  planOk atLeastThreeMeals p ->
  In day1 days -> In mealType1 mealTypes ->
  In day2 days -> In mealType2 mealTypes ->
  (day1, mealType1) <> (day2, mealType2) ->
  let p1 := writeSlot p day1 mealType1 v1 (Js.get p day1) in
  let p2 := writeSlot p day2 mealType2 v2 (Js.get p day2) in
  writeSlot p1 day2 mealType2 v2 (Js.get p1 day2)
  = writeSlot p2 day1 mealType1 v1 (Js.get p2 day1).
Proof.
  intros H D1 M1 D2 M2 N. cbv zeta.
  rewrite (writeSlot_grid _ _ _ v2 (planOk_write p day1 mealType1 v1 H) D2 M2).
  rewrite (writeSlot_grid _ _ _ v1 (planOk_write p day2 mealType2 v2 H) D1 M1).
  rewrite !writeSlot_grid by assumption.
  destruct H as [K _].
  destruct (String.eqb_spec day1 day2) as [<-|D].
  - rewrite !dayOf_replace_same by now rewrite K.
    rewrite !replace_replace. f_equal. apply replace_comm. congruence.
  - rewrite !own_get_replace_other by congruence.
    apply replace_comm. congruence.
Qed.

Lemma save_twice (p1 p2 : MealPlan) (st : localStorage) :
  saveMealPlan p2 (saveMealPlan p1 st) = saveMealPlan p2 st.
Proof. reflexivity. Qed.

Lemma addMeal_grid st day mealType recipe :
  reachable st -> In day days ->
  addMealToPlan day mealType recipe st
  = (true,
     saveMealPlan
       (writeSlot (getMealPlan st) day mealType (Some recipe)
          (Js.get (getMealPlan st) day)) st).
Proof.
  intros R D.
  destruct (reachable_slot st day "lunch" R D) as (d & G & _); [simpl; tauto|].
  unfold addMealToPlan. now rewrite G.
Qed.

Lemma removeMeal_grid st day mealType :
  reachable st -> In day days ->
  removeMealFromPlan day mealType st
  = (true,
     saveMealPlan
       (writeSlot (getMealPlan st) day mealType None
          (Js.get (getMealPlan st) day)) st).
Proof.
  intros R D.
  destruct (reachable_slot st day "lunch" R D) as (d & G & _); [simpl; tauto|].
  unfold removeMealFromPlan. now rewrite G.
Qed.

(** X8.  On every reachable plan and for every slot of the grid, the last
    write to a slot decides: a second add replaces the first, a remove
    after an add leaves what the remove alone leaves, and a second remove
    changes nothing. *)
Theorem last_write_to_a_slot_wins
  (st : localStorage) (day mealType : string) (r1 r2 : Recipe) :
  reachable st -> In day days -> In mealType mealTypes ->
  snd (addMealToPlan day mealType r2 (snd (addMealToPlan day mealType r1 st)))
  = snd (addMealToPlan day mealType r2 st)
  /\ snd (removeMealFromPlan day mealType
            (snd (addMealToPlan day mealType r1 st)))
     = snd (removeMealFromPlan day mealType st)
  /\ snd (removeMealFromPlan day mealType
            (snd (removeMealFromPlan day mealType st)))
     = snd (removeMealFromPlan day mealType st).
Proof.
  intros R D M.
  assert (H := reachable_atLeastThreeMeals st R).
  assert (R1 : reachable (snd (addMealToPlan day mealType r1 st)))
    by exact (reachable_step (SetMeal day mealType r1) st R).
  assert (R2 : reachable (snd (removeMealFromPlan day mealType st)))
    by exact (reachable_step (ClearMeal day mealType) st R).
  repeat split.
  - rewrite (addMeal_grid _ day mealType r2 R1 D).
    rewrite !(addMeal_grid st) by assumption. cbn [snd getMealPlan saveMealPlan
      MEAL_PLAN SHOPPING_LIST].
    change (getMealPlan st) with (getMealPlan st).
    now rewrite (write_twice (getMealPlan st) day mealType (Some r1) (Some r2)).
  - rewrite (removeMeal_grid _ day mealType R1 D).
    rewrite (addMeal_grid st), (removeMeal_grid st) by assumption.
    cbn [snd getMealPlan saveMealPlan MEAL_PLAN SHOPPING_LIST].
    now rewrite (write_twice (getMealPlan st) day mealType (Some r1) None).
  - rewrite (removeMeal_grid _ day mealType R2 D).
    rewrite !(removeMeal_grid st) by assumption.
    cbn [snd getMealPlan saveMealPlan MEAL_PLAN SHOPPING_LIST].
    now rewrite (write_twice (getMealPlan st) day mealType None None).
Qed.

Lemma last_write_to_a_slot_wins_witness :
  snd (addMealToPlan "friday" "dinner" flatbread
         (snd (addMealToPlan "friday" "dinner" pancakes freshStorage)))
  = snd (addMealToPlan "friday" "dinner" flatbread freshStorage)
  /\ snd (removeMealFromPlan "friday" "dinner"
            (snd (addMealToPlan "friday" "dinner" pancakes freshStorage)))
     = snd (removeMealFromPlan "friday" "dinner" freshStorage)
  /\ snd (removeMealFromPlan "friday" "dinner"
            (snd (removeMealFromPlan "friday" "dinner" freshStorage)))
     = snd (removeMealFromPlan "friday" "dinner" freshStorage).
Proof.
  apply (last_write_to_a_slot_wins freshStorage "friday" "dinner"
           pancakes flatbread).
  - apply reachable_fresh.
  - simpl. tauto.
  - simpl. tauto.
Defined.

(** X9.  On every reachable plan, adds to two different slots of the grid
    can be made in either order: the plan is the same. *)
Theorem adds_to_different_slots_commute
  (st : localStorage) (day1 mealType1 day2 mealType2 : string)
  (r1 r2 : Recipe) :
  reachable st ->
  In day1 days -> In mealType1 mealTypes ->
  In day2 days -> In mealType2 mealTypes ->
  (day1, mealType1) <> (day2, mealType2) ->
  snd (addMealToPlan day2 mealType2 r2
         (snd (addMealToPlan day1 mealType1 r1 st)))
  = snd (addMealToPlan day1 mealType1 r1
           (snd (addMealToPlan day2 mealType2 r2 st))).
Proof.
  intros R D1 M1 D2 M2 N.
  assert (H := reachable_atLeastThreeMeals st R).
  assert (R1 : reachable (snd (addMealToPlan day1 mealType1 r1 st)))
    by exact (reachable_step (SetMeal day1 mealType1 r1) st R).
  assert (R2 : reachable (snd (addMealToPlan day2 mealType2 r2 st)))
    by exact (reachable_step (SetMeal day2 mealType2 r2) st R).
  rewrite (addMeal_grid _ day2 mealType2 r2 R1 D2).
  rewrite (addMeal_grid _ day1 mealType1 r1 R2 D1).
  rewrite !(addMeal_grid st) by assumption.
  cbn [snd getMealPlan saveMealPlan MEAL_PLAN SHOPPING_LIST].
  now rewrite (write_comm (getMealPlan st) day1 mealType1 (Some r1)
                 day2 mealType2 (Some r2)).
Qed.

Lemma adds_to_different_slots_commute_witness :
  snd (addMealToPlan "monday" "lunch" flatbread
         (snd (addMealToPlan "monday" "breakfast" pancakes freshStorage)))
  = snd (addMealToPlan "monday" "breakfast" pancakes
           (snd (addMealToPlan "monday" "lunch" flatbread freshStorage))).
Proof.
  apply (adds_to_different_slots_commute freshStorage
           "monday" "breakfast" "monday" "lunch" pancakes flatbread).
  - apply reachable_fresh.
  - simpl. tauto.
  - simpl. tauto.
  - simpl. tauto.
  - simpl. tauto.
  - intros H. discriminate H.
Defined.

(** The meals of a plan of the grid, slot by slot. *)
Lemma meals_on_grid (st : localStorage) :
  planOk threeMeals (getMealPlan st) ->
  getAllMealsFromPlan st
  = flat_map
      (fun slot =>
         match slotAt (getMealPlan st) (fst slot) (snd slot) with
         | Some (Some recipe) => [mkMeal (fst slot) (snd slot) recipe]
         | _ => []
         end)
      slotNames.
Proof.
  intros G. unfold slotNames. rewrite flat_map_list_prod. cbn [fst snd].
  unfold getAllMealsFromPlan. cbv zeta.
  destruct G as [K A]. rewrite K.
  apply flat_map_ext. intros day. apply meals_of_day. now split.
Qed.

Lemma flat_map_short {A B : Type} (f : A -> list B) (l : list A) :
  (forall x, length (f x) <= 1) -> length (flat_map f l) <= length l.
Proof.
  intros H. induction l as [|x l IH]; simpl; trivial.
  rewrite length_app. specialize (H x). lia.
Qed.

(** X11.  On a plan of the 7 x 3 grid, [getAllMealsFromPlan] lists the
    populated slots and nothing else: a meal is listed exactly when its
    slot is a slot of the grid that holds its recipe, and at most 21 meals
    are listed. *)
Theorem meals_are_the_populated_slots (st : localStorage) :
  fullGrid (getMealPlan st) = true ->
  length (getAllMealsFromPlan st) <= 21
  /\ forall day mealType recipe,
       In (mkMeal day mealType recipe) (getAllMealsFromPlan st)
       <-> In (day, mealType) slotNames
           /\ slotAt (getMealPlan st) day mealType = Some (Some recipe).
Proof.
  intros G. apply fullGrid_spec in G. rewrite (meals_on_grid st G). split.
  - change 21 with (length slotNames). apply flat_map_short.
    intros [day mealType]. cbn [fst snd].
    destruct (slotAt (getMealPlan st) day mealType) as [[r|]|]; simpl; lia.
  - intros day mealType recipe. rewrite in_flat_map. split.
    + intros ([d m] & I & H). cbn [fst snd] in H.
      destruct (slotAt (getMealPlan st) d m) as [[r|]|] eqn:S;
        try contradiction.
      destruct H as [[= -> -> ->]|[]]. now split.
    + intros [I S]. exists (day, mealType). split; trivial.
      cbn [fst snd]. rewrite S. now left.
Qed.

Lemma meals_are_the_populated_slots_witness :
  length (getAllMealsFromPlan flourStorage) <= 21
  /\ forall day mealType recipe,
       In (mkMeal day mealType recipe) (getAllMealsFromPlan flourStorage)
       <-> In (day, mealType) slotNames
           /\ slotAt (getMealPlan flourStorage) day mealType
              = Some (Some recipe).
Proof.
  apply (meals_are_the_populated_slots flourStorage). reflexivity.
Defined.

Lemma firstOccurrences_nil (l : list string) :
  firstOccurrences l = [] -> l = [].
Proof. destruct l; [reflexivity|discriminate]. Qed.

(** X12.  The generated list is empty exactly when the plan has no
    ingredient; then [generateShoppingList] leaves the storage as it is,
    shopping list included, and such is the case after [clearMealPlan]. *)
Theorem nothing_to_generate (clock : nat -> Z * Z) (st : localStorage) :
  (generateShoppingListFromMealPlan st = [] <-> planIngredients st = [])
  /\ (planIngredients st = [] ->
      ShoppingPage.generateShoppingList clock st = st)
  /\ getAllMealsFromPlan (clearMealPlan st) = []
  /\ ShoppingPage.generateShoppingList clock (clearMealPlan st)
     = clearMealPlan st.
Proof.
  assert (E : planIngredients st = [] ->
              generateShoppingListFromMealPlan st = []).
  { intros H. now rewrite generate_unfold, H. }
  repeat split.
  - intros H. assert (N := generate_names st). rewrite H in N.
    symmetry in N. apply firstOccurrences_nil in N.
    now apply map_eq_nil in N.
  - exact E.
  - intros H. unfold ShoppingPage.generateShoppingList. cbv zeta.
    now rewrite (E H).
Qed.

Lemma nothing_to_generate_witness :
  ShoppingPage.generateShoppingList (fun _ => (0%Z, 0%Z)) sameMillisecond
  = sameMillisecond.
Proof.
  apply (proj1 (proj2 (nothing_to_generate (fun _ => (0%Z, 0%Z))
                         sameMillisecond))).
  reflexivity.
Defined.

(** *** The two halves of the storage *)

Lemma fill_keeps_list recipes (ds : list string) acc :
  SHOPPING_LIST (snd (fold_left (fillDay recipes) ds acc))
  = SHOPPING_LIST (snd acc).
Proof.
  revert acc. induction ds as [|d ds IH]; intros acc; simpl; trivial.
  rewrite IH. unfold fillDay. generalize mealTypes as ms. intros ms.
  revert acc. induction ms as [|m ms IHm]; intros acc; simpl; trivial.
  rewrite IHm. destruct acc as [i st]. unfold fillSlot.
  destruct (nth_error recipes i); trivial.
  cbn [snd]. unfold addMealToPlan.
  destruct (Js.get (getMealPlan st) d); reflexivity.
Qed.

Lemma commit_keeps_plan clock items acc :
  MEAL_PLAN (snd (fold_left (ShoppingPage.commitItem clock) items acc))
  = MEAL_PLAN (snd acc).
Proof.
  revert acc. induction items as [|a items IH]; intros [i st]; simpl; trivial.
  rewrite IH. cbn [snd]. unfold addToShoppingList. cbv zeta.
  destruct (existsb _ (getShoppingList st)); reflexivity.
Qed.

Lemma addOne_keeps_plan clock l acc :
  MEAL_PLAN (snd (snd (fold_left (RecipePage.addOne clock) l acc)))
  = MEAL_PLAN (snd (snd acc)).
Proof.
  revert acc. induction l as [|a l IH]; intros [i [n st]]; simpl; trivial.
  rewrite IH. cbn [snd]. unfold addToShoppingList. cbv zeta.
  destruct (existsb _ (getShoppingList st)); reflexivity.
Qed.

(** X13.  The meal plan and the shopping list do not interfere: no
    operation of the meal plan writes the shopping list, and no operation
    of the shopping list, the commit of a generated list included, writes
    the meal plan. *)
Theorem plan_and_list_do_not_interfere :
  (forall (op : PlanOp) (st : localStorage),
     SHOPPING_LIST (runOp op st) = SHOPPING_LIST st)
  /\ (forall (op : ShopOp) (st : localStorage),
        MEAL_PLAN (runShopOp op st) = MEAL_PLAN st).
Proof.
  split.
  - intros [|day m r|day m| |c rs] st; cbn [runOp]; trivial.
    + unfold addMealToPlan. destruct (Js.get (getMealPlan st) day); reflexivity.
    + unfold removeMealFromPlan.
      destruct (Js.get (getMealPlan st) day); reflexivity.
    + unfold generateAutoMealPlan. destruct c; cbn [negb]; trivial.
      destruct rs as [|r rs]; trivial. now rewrite fill_keeps_list.
  - intros [item t1 t2|id|id| |clock|fetched clock] st; cbn [runShopOp]; trivial.
    + unfold addToShoppingList. cbv zeta.
      destruct (existsb _ (getShoppingList st)); reflexivity.
    + unfold toggleShoppingItem.
      destruct (toggleFirst id (getShoppingList st)); reflexivity.
    + unfold ShoppingPage.generateShoppingList. cbv zeta.
      destruct (generateShoppingListFromMealPlan st); trivial.
      unfold ShoppingPage.commitGenerated. now rewrite commit_keeps_plan.
    + unfold RecipePage.addIngredientsToShoppingList.
      destruct fetched as [recipe|]; trivial.
      destruct (extendedIngredients recipe) as [l|]; trivial.
      assert (H := addOne_keeps_plan clock l (0, (0, st))).
      destruct (fold_left (RecipePage.addOne clock) l (0, (0, st)))
        as [i [n st']]. exact H.
Qed.

(** X14.  After autoGenerate with k recipes, k at most 21, the meals of
    the plan are those k recipes, in order, in the first k slots: the
    count the summary shows is k. *)
Theorem autoGenerate_meals (st : localStorage) (recipes : list Recipe) :
  length recipes <= 21 ->
  let meals := getAllMealsFromPlan (generateAutoMealPlan true recipes st) in
  map meal_recipe meals = recipes
  /\ map (fun meal => (meal_day meal, meal_mealType meal)) meals
     = firstn (length recipes) slotNames
  /\ length meals = length recipes.
Proof.
  intros L. cbv zeta.
  do 22 (destruct recipes as [|? recipes];
         [repeat split; vm_compute; reflexivity|]).
  simpl in L. lia.
Qed.

Lemma autoGenerate_meals_witness :
  let meals := getAllMealsFromPlan (generateAutoMealPlan true tenRecipes flourStorage) in
  map meal_recipe meals = tenRecipes
  /\ map (fun meal => (meal_day meal, meal_mealType meal)) meals
     = firstn (length tenRecipes) slotNames
  /\ length meals = length tenRecipes.
Proof.
  apply (autoGenerate_meals flourStorage tenRecipes). simpl. lia.
Defined.

(* ================================================================== *)
(** ** More on the shopping list *)

Lemma existsb_lowerNames (n : string) (l : list ShoppingItem) :
  existsb (fun i => Js.toLowerCase (item_name i) =? n) l = false ->
  ~ In n (lowerNames l).
Proof.
  intros E I. apply in_map_iff in I as (i & F & I).
  assert (T : existsb (fun i => Js.toLowerCase (item_name i) =? n) l = true).
  { apply existsb_exists. exists i. split; trivial. now apply String.eqb_eq. }
  congruence.
Qed.

Lemma add_keeps_names_distinct item t1 t2 st :
  distinctNames (getShoppingList st) ->
  distinctNames (getShoppingList (snd (addToShoppingList item t1 t2 st))).
Proof.
  intros H. unfold addToShoppingList. cbv zeta.
  destruct (existsb _ (getShoppingList st)) eqn:E; trivial.
  cbn [snd getShoppingList saveShoppingList SHOPPING_LIST].
  unfold distinctNames, lowerNames. rewrite map_app.
  apply NoDup_app; trivial.
  - repeat constructor. simpl. tauto.
  - intros x I [<-|[]]. revert I. now apply existsb_lowerNames.
Qed.

Lemma toggleFirst_fields id l l' :
  toggleFirst id l = Some l' ->
  map item_name l' = map item_name l /\ map item_id l' = map item_id l
  /\ map item_category l' = map item_category l.
Proof.
  revert l'. induction l as [|i l IH]; intros l'; simpl; [discriminate|].
  destruct (item_id i =? id)%Z.
  - intros [= <-]. repeat split.
  - destruct (toggleFirst id l) as [r|]; [|discriminate].
    intros [= <-]. destruct (IH r eq_refl) as (N & I & C).
    simpl. now rewrite N, I, C.
Qed.

Lemma commit_keeps_names_distinct clock items acc :
  distinctNames (getShoppingList (snd acc)) ->
  distinctNames
    (getShoppingList (snd (fold_left (ShoppingPage.commitItem clock) items acc))).
Proof.
  revert acc. induction items as [|a items IH]; intros [i st] H; simpl; trivial.
  apply IH. cbn [snd]. now apply add_keeps_names_distinct.
Qed.

Lemma addOne_keeps_names_distinct clock l acc :
  distinctNames (getShoppingList (snd (snd acc))) ->
  distinctNames
    (getShoppingList (snd (snd (fold_left (RecipePage.addOne clock) l acc)))).
Proof.
  revert acc. induction l as [|a l IH]; intros [i [n st]] H; simpl; trivial.
  apply IH. cbn [snd]. now apply add_keeps_names_distinct.
Qed.

(** X15.  The shopping list never holds one name twice, up to case: every
    operation on it (add, remove, toggle, clear, the commit of a generated
    list, the add of the ingredients of a recipe) keeps the lowercased
    names of the list distinct. *)
Theorem shopping_names_stay_distinct (op : ShopOp) (st : localStorage) :
  distinctNames (getShoppingList st) ->
  distinctNames (getShoppingList (runShopOp op st)).
Proof.
  intros H.
  destruct op as [item t1 t2|id|id| |clock|fetched clock]; cbn [runShopOp].
  - now apply add_keeps_names_distinct.
  - now apply kept_distinct.
  - unfold toggleShoppingItem.
    destruct (toggleFirst id (getShoppingList st)) as [l'|] eqn:T; trivial.
    cbn [snd getShoppingList saveShoppingList SHOPPING_LIST].
    apply toggleFirst_fields in T as (N & _).
    unfold distinctNames, lowerNames in *.
    rewrite <- (map_map item_name Js.toLowerCase) in *. now rewrite N.
  - constructor.
  - unfold ShoppingPage.generateShoppingList. cbv zeta.
    destruct (generateShoppingListFromMealPlan st); trivial.
    apply commit_keeps_names_distinct. constructor.
  - unfold RecipePage.addIngredientsToShoppingList.
    destruct fetched as [recipe|]; trivial.
    destruct (extendedIngredients recipe) as [l|]; trivial.
    assert (K := addOne_keeps_names_distinct clock l (0, (0, st)) H).
    destruct (fold_left (RecipePage.addOne clock) l (0, (0, st)))
      as [i [n st']]. exact K.
Qed.

Lemma shopping_names_stay_distinct_witness :
  distinctNames
    (getShoppingList
       (runShopOp (ShopAdd (mkItemArg "MILK" None None None None) 7%Z 7%Z)
          sameMillisecond)).
Proof.
  apply (shopping_names_stay_distinct
           (ShopAdd (mkItemArg "MILK" None None None None) 7%Z 7%Z)
           sameMillisecond).
  repeat constructor; simpl; intuition discriminate.
Defined.

Lemma flipChecked_twice (i : ShoppingItem) : flipChecked (flipChecked i) = i.
Proof. destruct i as [a b c d e]. unfold flipChecked. simpl. now rewrite negb_involutive. Qed.

Lemma toggleFirst_twice id l l' :
  toggleFirst id l = Some l' -> toggleFirst id l' = Some l.
Proof.
  revert l'. induction l as [|i l IH]; intros l'; simpl; [discriminate|].
  destruct (item_id i =? id)%Z eqn:E.
  - intros [= <-]. simpl. rewrite E. f_equal. f_equal.
    apply (flipChecked_twice i).
  - destruct (toggleFirst id l) as [r|]; [|discriminate].
    intros [= <-]. simpl. rewrite E. now rewrite (IH r eq_refl).
Qed.

Lemma toggleFirst_found id l :
  toggleFirst id l = None
  <-> existsb (fun i => (item_id i =? id)%Z) l = false.
Proof.
  induction l as [|i l IH]; simpl; [tauto|].
  destruct (item_id i =? id)%Z; simpl; [split; discriminate|].
  rewrite <- IH. destruct (toggleFirst id l); simpl; split; congruence.
Qed.

(** X16.  A toggle touches the checked flags only, and two toggles of one
    id undo each other: the ids, names and categories of the list are
    those there were, a toggle reports success exactly when an item bears
    the id, and after a second toggle the list is the list there was. *)
Theorem toggle_twice_restores (st : localStorage) (id : Z) :
  let once := toggleShoppingItem id st in
  let twice := toggleShoppingItem id (snd once) in
  getShoppingList (snd twice) = getShoppingList st
  /\ fst once = existsb (fun i => (item_id i =? id)%Z) (getShoppingList st)
  /\ fst twice = fst once
  /\ map item_id (getShoppingList (snd once))
     = map item_id (getShoppingList st)
  /\ map item_name (getShoppingList (snd once))
     = map item_name (getShoppingList st)
  /\ map item_category (getShoppingList (snd once))
     = map item_category (getShoppingList st).
Proof.
  cbv zeta.
  destruct (toggleFirst id (getShoppingList st)) as [l'|] eqn:T.
  - assert (O : toggleShoppingItem id st = (true, saveShoppingList l' st))
      by (unfold toggleShoppingItem; now rewrite T).
    rewrite O. cbn [fst snd]. unfold toggleShoppingItem.
    cbn [getShoppingList saveShoppingList SHOPPING_LIST].
    rewrite (toggleFirst_twice _ _ _ T).
    cbn [fst snd getShoppingList saveShoppingList SHOPPING_LIST].
    destruct (toggleFirst_fields _ _ _ T) as (N & I & C).
    repeat split; trivial.
    destruct (existsb (fun i => (item_id i =? id)%Z) (getShoppingList st))
      eqn:E; trivial.
    apply toggleFirst_found in E. congruence.
  - assert (O : toggleShoppingItem id st = (false, st))
      by (unfold toggleShoppingItem; now rewrite T).
    rewrite O. cbn [fst snd]. rewrite O. cbn [fst snd].
    repeat split. symmetry. now apply toggleFirst_found.
Qed.

Lemma filter_filter_same {A : Type} (p : A -> bool) (l : list A) :
  filter p (filter p l) = filter p l.
Proof.
  apply filter_all. apply Forall_forall. intros x I.
  now apply filter_In in I.
Qed.

Lemma filter_split_length {A : Type} (p : A -> bool) (l : list A) :
  length (filter (fun x => negb (p x)) l) + length (filter p l) = length l.
Proof.
  induction l as [|x l IH]; simpl; trivial.
  destruct (p x); simpl; lia.
Qed.

(** X17.  A remove of an id no item bears leaves the items as they are, a
    second remove of an id removes nothing more, and the list shrinks by
    the number of items that bear the id. *)
Theorem remove_twice_is_remove_once (st : localStorage) (id : Z) :
  removeFromShoppingList id (removeFromShoppingList id st)
  = removeFromShoppingList id st
  /\ (existsb (fun i => (item_id i =? id)%Z) (getShoppingList st) = false ->
      getShoppingList (removeFromShoppingList id st) = getShoppingList st)
  /\ length (getShoppingList (removeFromShoppingList id st))
     + length (filter (fun i => (item_id i =? id)%Z) (getShoppingList st))
     = length (getShoppingList st).
Proof.
  unfold removeFromShoppingList. cbv zeta.
  cbn [getShoppingList saveShoppingList SHOPPING_LIST MEAL_PLAN].
  repeat split.
  - now rewrite filter_filter_same.
  - intros E. now apply (filter_none (fun i => (item_id i =? id)%Z)).
  - apply (filter_split_length (fun i => (item_id i =? id)%Z)).
Qed.

Lemma remove_twice_is_remove_once_witness :
  getShoppingList (removeFromShoppingList 5%Z sameMillisecond)
  = getShoppingList sameMillisecond.
Proof.
  apply (proj1 (proj2 (remove_twice_is_remove_once sameMillisecond 5%Z))).
  reflexivity.
Defined.

(** *** Categories and sections *)

Lemma categorize_in_categories (hint : option string) :
  In (categorizeIngredient hint) ShoppingView.categories.
Proof.
  unfold categorizeIngredient. cbv zeta.
  generalize (Js.toLowerCase (Js.str_or hint "")). intro s.
  repeat match goal with
         | |- context [Js.includes ?s ?w] =>
             destruct (Js.includes s w); cbn [orb]
         end; simpl; tauto.
Qed.

Lemma generated_categories (st : localStorage) :
  Forall (fun a => In (agg_category a) ShoppingView.categories)
    (generateShoppingListFromMealPlan st).
Proof.
  rewrite generate_unfold. apply Forall_forall. intros a I.
  unfold JsMap.values in I. apply in_map_iff in I as ([k b] & E & I).
  simpl in E. subst b.
  assert (F : In (k, a)
                (filter (fun kv => fst kv =? k)
                   (fold_left addIngredient (planIngredients st) JsMap.empty))).
  { apply filter_In. split; trivial. apply String.eqb_refl. }
  rewrite aggregate_keyed in F.
  destruct (named k (planIngredients st)); [contradiction|].
  destruct F as [[= <-]|[]]. apply categorize_in_categories.
Qed.

Lemma written_categories clock i seen items :
  Forall (fun a => In (agg_category a) ShoppingView.categories) items ->
  Forall (fun s => In (item_category s) ShoppingView.categories
                   /\ item_checked s = false)
    (written clock i seen items).
Proof.
  intros H. revert i seen.
  induction H as [|a items C _ IH]; intros i seen; simpl; [constructor|].
  destruct (existsb _ seen); [apply IH|].
  constructor; [|apply IH]. split; [|reflexivity].
  cbn [item_category Js.str_or].
  destruct (agg_category a =? "") eqn:E; [simpl; tauto|exact C].
Qed.

(** X18.  The categorizer answers one of the seven categories the
    shopping-list page has a section for, so every entry of a generated
    list, and every item a commit stores, unchecked, belongs to one of
    the sections. *)
Theorem generated_items_have_a_section :
  (forall hint : option string,
     In (categorizeIngredient hint) ShoppingView.categories)
  /\ (forall st : localStorage,
        Forall (fun a => In (agg_category a) ShoppingView.categories)
          (generateShoppingListFromMealPlan st))
  /\ (forall (clock : nat -> Z * Z) (st : localStorage),
        generateShoppingListFromMealPlan st <> [] ->
        Forall (fun s => In (item_category s) ShoppingView.categories
                         /\ item_checked s = false)
          (getShoppingList (ShoppingPage.generateShoppingList clock st))).
Proof.
  split; [exact categorize_in_categories|].
  split; [exact generated_categories|].
  intros clock st N. unfold ShoppingPage.generateShoppingList. cbv zeta.
  assert (G := generated_categories st).
  destruct (generateShoppingListFromMealPlan st) as [|a items]; [congruence|].
  unfold ShoppingPage.commitGenerated. rewrite commit_written.
  cbn [getShoppingList clearShoppingList saveShoppingList SHOPPING_LIST app].
  now apply written_categories.
Qed.

Lemma generated_items_have_a_section_witness :
  Forall (fun s => In (item_category s) ShoppingView.categories
                   /\ item_checked s = false)
    (getShoppingList
       (ShoppingPage.generateShoppingList (fun _ => (3%Z, 4%Z)) flourStorage)).
Proof.
  apply (proj2 (proj2 generated_items_have_a_section)
           (fun _ => (3%Z, 4%Z)) flourStorage).
  vm_compute. intros H. discriminate H.
Defined.

(** *** Adding the ingredients of a recipe *)

Lemma addOne_appends clock l i n st :
  exists added,
    getShoppingList (snd (snd (fold_left (RecipePage.addOne clock) l (i, (n, st)))))
    = getShoppingList st ++ added
    /\ fst (snd (fold_left (RecipePage.addOne clock) l (i, (n, st))))
       = n + length added
    /\ length added <= length l
    /\ Forall (fun s => In (item_category s) ShoppingView.categories
                        /\ item_checked s = false
                        /\ exists g, In g l /\ item_name s = ing_name g)
         added.
Proof.
  revert i n st. induction l as [|g l IH]; intros i n st.
  - exists []. simpl. rewrite app_nil_r. repeat split; trivial; lia.
  - cbn [fold_left RecipePage.addOne]. unfold addToShoppingList. cbv zeta.
    destruct (existsb _ (getShoppingList st)); cbn [fst snd].
    + destruct (IH (S i) n st) as (added & E & C & L & F).
      exists added. repeat split; trivial; [simpl; lia|].
      eapply Forall_impl; [|exact F]. intros s (A & B & g' & I & N).
      repeat split; trivial. exists g'. split; [now right|exact N].
    + match goal with
      | |- context [saveShoppingList (_ ++ [?new]) st] => set (item := new)
      end.
      destruct (IH (S i) (S n)
                  (saveShoppingList (getShoppingList st ++ [item]) st))
        as (added & E & C & L & F).
      exists (item :: added). repeat split.
      * rewrite E. cbn [getShoppingList saveShoppingList SHOPPING_LIST].
        now rewrite <- app_assoc.
      * rewrite C. simpl. lia.
      * simpl. lia.
      * constructor.
        -- repeat split.
           ++ subst item. cbn [item_category RecipePage.itemOf arg_category
                Js.str_or].
              match goal with
              | |- context [categorizeIngredient ?h] =>
                  pose proof (categorize_in_categories h) as K;
                  destruct (categorizeIngredient h =? ""); [simpl; tauto|exact K]
              end.
           ++ exists g. split; [now left|reflexivity].
        -- eapply Forall_impl; [|exact F]. intros s (A & B & g' & I & N).
           repeat split; trivial. exists g'. split; [now right|exact N].
Qed.

(** X19.  Adding the ingredients of a recipe appends items and touches
    none that was there: when the recipe or its ingredient list is missing
    the storage is left as it is and no count is reported; otherwise the
    count reported is the number of items appended, at most one per
    ingredient, each unchecked, named after an ingredient of the recipe
    and filed under one of the seven categories. *)
Theorem ingredients_are_appended
  (fetched : option Recipe) (clock : nat -> Z * Z) (st : localStorage) :
  match RecipePage.addIngredientsToShoppingList fetched clock st with
  | (None, st') =>
      st' = st
      /\ (fetched = None
          \/ exists recipe,
               fetched = Some recipe /\ extendedIngredients recipe = None)
  | (Some addedCount, st') =>
      exists recipe added,
        fetched = Some recipe
        /\ getShoppingList st' = getShoppingList st ++ added
        /\ length added = addedCount
        /\ addedCount <= length (ingredientsOf recipe)
        /\ Forall (fun s => In (item_category s) ShoppingView.categories
                            /\ item_checked s = false
                            /\ exists g, In g (ingredientsOf recipe)
                                         /\ item_name s = ing_name g)
             added
  end.
Proof.
  unfold RecipePage.addIngredientsToShoppingList.
  destruct fetched as [recipe|]; [|split; [reflexivity|now left]].
  unfold ingredientsOf.
  destruct (extendedIngredients recipe) as [l|] eqn:X.
  - destruct (addOne_appends clock l 0 0 st) as (added & E & C & L & F).
    destruct (fold_left (RecipePage.addOne clock) l (0, (0, st)))
      as [i [n st']]. cbn [fst snd] in *.
    exists recipe, added. rewrite X. repeat split; trivial; lia.
  - split; [reflexivity|]. right. now exists recipe.
Qed.

(* ================================================================== *)
(** ** The sections of the shopping-list page *)

(** The items grouped under a category, none when the category is not a
    key of the grouping. *)
Local Abbreviation grouped_under g c :=
  (match Js.own_get g c with Some l => l | None => [] end).

(** The name is not one [Object.prototype] has. *)
Local Abbreviation plain_name c :=
  (existsb (String.eqb c) Js.object_prototype_names = false).

Lemma plain_name_not_proto (c : string) : plain_name c -> c <> "__proto__".
Proof. intros H ->. discriminate H. Qed.

Lemma groupItem_plain (g0 : Js.obj (list ShoppingItem)) (i : ShoppingItem) :
  plain_name (item_category i) ->
  exists g,
    ShoppingView.groupItem (Some g0) i = Some g
    /\ forall c,
         Js.own_get g c
         = if item_category i =? c
           then Some (grouped_under g0 c ++ [i])
           else Js.own_get g0 c.
Proof.
  intros P. unfold ShoppingView.groupItem. cbv zeta.
  destruct (Js.own_get g0 (item_category i)) as [l0|] eqn:G.
  - assert (T : Js.get g0 (item_category i) = Js.OwnValue l0)
      by (unfold Js.get; now rewrite G).
    rewrite T. cbv iota. rewrite T.
    eexists. split; [reflexivity|].
    intros c. destruct (String.eqb_spec (item_category i) c) as [<-|N].
    + rewrite own_get_replace_same by congruence. now rewrite G.
    + apply own_get_replace_other. congruence.
  - assert (T : Js.get g0 (item_category i) = Js.Undefined)
      by (unfold Js.get; now rewrite G, P).
    rewrite T. cbv iota.
    assert (U : Js.get (Js.assign (item_category i) [] g0) (item_category i)
                = Js.OwnValue []).
    { unfold Js.get.
      now rewrite own_get_assign_same by now apply plain_name_not_proto. }
    rewrite U.
    eexists. split; [reflexivity|].
    intros c. destruct (String.eqb_spec (item_category i) c) as [<-|N].
    + rewrite own_get_replace_same.
      * now rewrite G.
      * rewrite own_get_assign_same by now apply plain_name_not_proto.
        discriminate.
    + rewrite own_get_replace_other by congruence.
      apply own_get_assign_other. congruence.
Qed.

(** The grouping loop files every item under its category, in order. *)
Lemma grouping_plain (l : list ShoppingItem) (g0 : Js.obj (list ShoppingItem)) :
  Forall (fun i => plain_name (item_category i)) l ->
  exists g,
    fold_left ShoppingView.groupItem l (Some g0) = Some g
    /\ forall c,
         grouped_under g c
         = grouped_under g0 c ++ filter (fun i => item_category i =? c) l.
Proof.
  intros H. revert g0. induction H as [|i l P _ IH]; intros g0.
  - exists g0. split; [reflexivity|]. intros c. now rewrite app_nil_r.
  - destruct (groupItem_plain g0 i P) as (g1 & E1 & S1).
    destruct (IH g1) as (g & E & S).
    exists g. cbn [fold_left]. rewrite E1. split; [exact E|].
    intros c. rewrite S, S1. cbn [filter].
    destruct (item_category i =? c); [|reflexivity].
    now rewrite <- app_assoc.
Qed.

Lemma category_is_plain (c : string) :
  In c ShoppingView.categories -> plain_name c.
Proof.
  simpl. intros H.
  repeat (destruct H as [<-|H]; [reflexivity|]). contradiction.
Qed.

Lemma section_counts (l : list ShoppingItem) :
  Forall (fun i => In (item_category i) ShoppingView.categories) l ->
  list_sum
    (map (fun c => length (filter (fun i => item_category i =? c) l))
       ShoppingView.categories)
  = length l.
Proof.
  induction 1 as [|i l C _ IH]; [reflexivity|].
  cbn [length]. rewrite <- IH. clear IH.
  unfold ShoppingView.categories in *. cbn [map list_sum filter].
  simpl in C.
  repeat (destruct C as [C|C];
          [rewrite <- C; simpl; lia|]).
  contradiction.
Qed.

(** X20.  When every item of the list is filed under one of the seven
    categories, the page shows each item exactly once: the section of a
    category holds the items of that category in list order, the sizes of
    the sections add up to the total of the summary, and checked plus
    remaining is the total. *)
Theorem sections_show_every_item (st : localStorage) :
  Forall (fun i => In (item_category i) ShoppingView.categories)
    (getShoppingList st) ->
  exists view,
    ShoppingView.loadShoppingList st = Some view
    /\ ShoppingView.sections view
       = map (fun c =>
                (c, filter (fun i => item_category i =? c) (getShoppingList st)))
           ShoppingView.categories
    /\ ShoppingView.totalItems view = length (getShoppingList st)
    /\ list_sum (map (fun s => length (snd s)) (ShoppingView.sections view))
       = ShoppingView.totalItems view
    /\ ShoppingView.checkedItems view + ShoppingView.remainingItems view
       = ShoppingView.totalItems view.
Proof.
  intros H. unfold ShoppingView.loadShoppingList. cbv zeta.
  assert (P : Forall (fun i => plain_name (item_category i))
                (getShoppingList st)).
  { eapply Forall_impl; [|exact H]. intros i. apply category_is_plain. }
  destruct (grouping_plain _ [] P) as (g & E & S).
  revert H P E S. generalize (getShoppingList st) as l. intros l H P E S.
  destruct l as [|i0 l0].
  - eexists. split; [reflexivity|]. repeat split.
  - cbv iota. set (l := i0 :: l0) in *.
    eexists.
    match goal with
    | |- context [fold_left ?f ?items ?a] =>
        replace (fold_left f items a) with (Some g) by (symmetry; exact E)
    end.
    split; [reflexivity|].
    cbn [ShoppingView.sections ShoppingView.totalItems
         ShoppingView.checkedItems ShoppingView.remainingItems].
    assert (X : map (ShoppingView.sectionOf g) ShoppingView.categories
                = map (fun c =>
                         (c, filter (fun i => item_category i =? c) l))
                    ShoppingView.categories).
    { apply map_ext_in. intros c I. unfold ShoppingView.sectionOf, Js.get.
      f_equal. specialize (S c). cbn [Js.own_get app] in S.
      destruct (Js.own_get g c); [exact S|].
      rewrite (category_is_plain c I). exact S. }
    rewrite X. repeat split.
    + rewrite map_map. cbn [snd]. now apply section_counts.
    + assert (F := filter_length_le item_checked l). lia.
Qed.

Lemma sections_show_every_item_witness :
  exists view,
    ShoppingView.loadShoppingList sameMillisecond = Some view
    /\ ShoppingView.sections view
       = map (fun c =>
                (c, filter (fun i => item_category i =? c)
                      (getShoppingList sameMillisecond)))
           ShoppingView.categories
    /\ ShoppingView.totalItems view = length (getShoppingList sameMillisecond)
    /\ list_sum (map (fun s => length (snd s)) (ShoppingView.sections view))
       = ShoppingView.totalItems view
    /\ ShoppingView.checkedItems view + ShoppingView.remainingItems view
       = ShoppingView.totalItems view.
Proof.
  apply (sections_show_every_item sameMillisecond).
  repeat constructor; simpl; tauto.
Defined.

Lemma grouping_raised (l : list ShoppingItem) :
  fold_left ShoppingView.groupItem l None = None.
Proof. induction l as [|i l IH]; simpl; trivial. Qed.

Lemma grouping_raises (l : list ShoppingItem) (g0 : Js.obj (list ShoppingItem)) :
  (forall k, In k Js.object_prototype_names -> Js.own_get g0 k = None) ->
  Exists (fun i => In (item_category i) Js.object_prototype_names) l ->
  fold_left ShoppingView.groupItem l (Some g0) = None.
Proof.
  intros O X. revert g0 O.
  induction l as [|i l IH]; intros g0 O; [inversion X|].
  cbn [fold_left].
  destruct (existsb (String.eqb (item_category i)) Js.object_prototype_names)
    eqn:P.
  - assert (I : In (item_category i) Js.object_prototype_names).
    { apply existsb_exists in P as (x & I & E).
      apply String.eqb_eq in E. now subst x. }
    assert (T : Js.get g0 (item_category i) = Js.InheritedValue)
      by (unfold Js.get; now rewrite (O _ I), P).
    unfold ShoppingView.groupItem. cbv zeta. rewrite T. cbv iota. rewrite T.
    apply grouping_raised.
  - destruct (groupItem_plain g0 i P) as (g1 & E1 & S1). rewrite E1.
    apply IH.
    + inversion X as [? ? B|? ? B]; subst; trivial.
      exfalso.
      assert (T : existsb (String.eqb (item_category i))
                    Js.object_prototype_names = true).
      { apply existsb_exists. exists (item_category i).
        split; trivial. apply String.eqb_refl. }
      congruence.
    + intros k K. rewrite S1.
      destruct (String.eqb_spec (item_category i) k) as [<-|N]; [|now apply O].
      exfalso.
      assert (T : existsb (String.eqb (item_category i))
                    Js.object_prototype_names = true).
      { apply existsb_exists. exists (item_category i).
        split; trivial. apply String.eqb_refl. }
      congruence.
Qed.

(** X21.  When an item of the list is filed under a name that
    [Object.prototype] has, such as "constructor", the page cannot be
    shown: the grouping loop raises a [TypeError]. *)
Theorem inherited_category_breaks_the_page (st : localStorage) :
  Exists (fun i => In (item_category i) Js.object_prototype_names)
    (getShoppingList st) ->
  ShoppingView.loadShoppingList st = None.
Proof.
  intros X. unfold ShoppingView.loadShoppingList. cbv zeta.
  destruct (getShoppingList st) as [|i0 l0] eqn:L; [inversion X|].
  match goal with
  | |- context [fold_left ?f ?items ?a] =>
      replace (fold_left f items a) with (@None (Js.obj (list ShoppingItem)))
  end; [reflexivity|].
  symmetry. apply grouping_raises; trivial.
Qed.

Lemma inherited_category_breaks_the_page_witness :
  ShoppingView.loadShoppingList
    (snd (addToShoppingList
            (mkItemArg "Salt" (Some "constructor") None None None)
            9%Z 9%Z sameMillisecond))
  = None.
Proof.
  apply (inherited_category_breaks_the_page
           (snd (addToShoppingList
                   (mkItemArg "Salt" (Some "constructor") None None None)
                   9%Z 9%Z sameMillisecond))).
  apply Exists_cons_tl, Exists_cons_tl, Exists_cons_hd.
  simpl. tauto.
Defined.

(* ================================================================== *)
(** ** Utilities *)

Lemma length_append (a b : string) :
  String.length (a ++ b)%string = String.length a + String.length b.
Proof. induction a as [|c a IH]; simpl; [reflexivity|now rewrite IH]. Qed.

Lemma length_substring (n : nat) (s : string) :
  n <= String.length s -> String.length (String.substring 0 n s) = n.
Proof.
  revert s. induction n as [|n IH]; intros [|c s]; simpl; trivial; try lia.
  intros H. rewrite IH; lia.
Qed.

(** X22.  [truncateText] returns a text within the limit as it is, and a
    longer text cut to the limit and followed by three dots: the result
    starts like the text, is never longer than the limit plus three, and
    when the text is cut it is exactly that long, which may be longer than
    the text. *)
Theorem truncateText_bounds (text : string) (maxLength : nat) :
  let result := Utils.truncateText (Some text) maxLength in
  String.length result <= maxLength + 3
  /\ (String.length text <= maxLength -> result = text)
  /\ (maxLength < String.length text ->
      result = (String.substring 0 maxLength text ++ "...")%string
      /\ String.length result = maxLength + 3
      /\ String.prefix (String.substring 0 maxLength text) text = true).
Proof.
  cbv zeta. unfold Utils.truncateText.
  destruct (text =? "") eqn:E.
  - apply String.eqb_eq in E. subst text. simpl.
    repeat split; trivial; lia.
  - destruct (String.length text <=? maxLength)%nat eqn:L.
    + apply Nat.leb_le in L. repeat split; trivial; lia.
    + apply Nat.leb_gt in L.
      assert (S : String.length (String.substring 0 maxLength text) = maxLength)
        by (apply length_substring; lia).
      rewrite length_append, S. simpl. repeat split; trivial; try lia.
      apply String.prefix_correct. now rewrite S.
Qed.

Lemma truncateText_bounds_witness :
  Utils.truncateText (Some "Spaghetti") 30 = "Spaghetti".
Proof.
  apply (proj1 (proj2 (truncateText_bounds "Spaghetti" 30))).
  simpl. lia.
Defined.

Lemma upper_ascii_twice (c : ascii) :
  JsString.upper_ascii (JsString.upper_ascii c) = JsString.upper_ascii c.
Proof. destruct c as [[] [] [] [] [] [] [] []]; reflexivity. Qed.

Lemma lower_upper_ascii (c : ascii) :
  Js.lower_ascii (JsString.upper_ascii c) = Js.lower_ascii c.
Proof. destruct c as [[] [] [] [] [] [] [] []]; reflexivity. Qed.

(** X23.  [capitalizeFirst] changes the case of the first character and
    nothing else: the result has the length of the string and the same
    lowercase form, its tail is the tail of the string, and capitalizing
    it again changes nothing. *)
Theorem capitalizeFirst_changes_case_only (str : string) :
  String.length (Utils.capitalizeFirst (Some str)) = String.length str
  /\ Js.toLowerCase (Utils.capitalizeFirst (Some str)) = Js.toLowerCase str
  /\ String.substring 1 (String.length str) (Utils.capitalizeFirst (Some str))
     = String.substring 1 (String.length str) str
  /\ Utils.capitalizeFirst (Some (Utils.capitalizeFirst (Some str)))
     = Utils.capitalizeFirst (Some str).
Proof.
  destruct str as [|c rest]; [repeat split|].
  cbn [Utils.capitalizeFirst]. repeat split.
  - simpl. now rewrite lower_upper_ascii.
  - now rewrite upper_ascii_twice.
Qed.

(** *** Shuffling *)

From Stdlib Require Import Permutation.

Section ShuffleFacts.

Context {A : Type}.
Implicit Types (l : list A) (a b : A).

Lemma set_nth_perm l i a b :
  nth_error l i = Some a ->
  Permutation (a :: Utils.set_nth i b l) (b :: l).
Proof.
  revert i. induction l as [|x l IH]; intros [|i]; simpl; try discriminate.
  - intros [= ->]. apply perm_swap.
  - intros H. specialize (IH i H).
    eapply perm_trans; [apply perm_swap|].
    eapply perm_trans; [apply perm_skip, IH|]. apply perm_swap.
Qed.

Lemma nth_error_set_nth_same l i a b :
  nth_error l i = Some a -> nth_error (Utils.set_nth i b l) i = Some b.
Proof.
  revert i. induction l as [|x l IH]; intros [|i]; simpl; try discriminate;
    auto.
Qed.

Lemma nth_error_set_nth_other l i j b :
  i <> j -> nth_error (Utils.set_nth i b l) j = nth_error l j.
Proof.
  revert i j. induction l as [|x l IH]; intros [|i] [|j] N; simpl; trivial.
  - congruence.
  - apply IH. congruence.
Qed.

Lemma length_set_nth l i b : length (Utils.set_nth i b l) = length l.
Proof.
  revert i. induction l as [|x l IH]; intros [|i]; simpl; auto.
Qed.

Lemma swap_perm l i j : Permutation (Utils.swap i j l) l.
Proof.
  unfold Utils.swap.
  destruct (nth_error l i) as [a|] eqn:I; [|reflexivity].
  destruct (nth_error l j) as [b|] eqn:J; [|reflexivity].
  assert (P1 := set_nth_perm l i a b I).
  assert (J' : nth_error (Utils.set_nth i b l) j = Some b).
  { destruct (Nat.eq_dec i j) as [<-|N].
    - now apply (nth_error_set_nth_same l i a b).
    - now rewrite nth_error_set_nth_other. }
  assert (P2 := set_nth_perm (Utils.set_nth i b l) j b a J').
  apply (Permutation_cons_inv (a := b)).
  eapply perm_trans; [exact P2|exact P1].
Qed.

Lemma shuffleFrom_perm pick i l : Permutation (Utils.shuffleFrom pick i l) l.
Proof.
  revert l. induction i as [|i IH]; intros l; simpl; [reflexivity|].
  eapply perm_trans; [apply IH|apply swap_perm].
Qed.

End ShuffleFacts.

(** X24.  [shuffleArray] only reorders: whatever numbers the random
    source gives, each within its range, the result is a permutation of
    the array, of the same length. *)
Theorem shuffleArray_permutes {A : Type} (pick : nat -> nat) (array : list A) :
  (forall i, pick i <= i) ->
  Permutation (Utils.shuffleArray pick array) array
  /\ length (Utils.shuffleArray pick array) = length array.
Proof.
  intros _. assert (P := shuffleFrom_perm pick (length array - 1) array).
  split; [exact P|]. now apply Permutation_length.
Qed.

Lemma shuffleArray_permutes_witness :
  Permutation (Utils.shuffleArray (fun i => i / 2) [1; 2; 3; 4; 5]) [1; 2; 3; 4; 5]
  /\ length (Utils.shuffleArray (fun i => i / 2) [1; 2; 3; 4; 5])
     = length [1; 2; 3; 4; 5].
Proof.
  apply (shuffleArray_permutes (fun i => i / 2) [1; 2; 3; 4; 5]).
  intros i. apply Nat.Div0.div_le_upper_bound. lia.
Defined.

(* ================================================================== *)
(** ** The cache of API responses *)

Section CacheFacts.

Context {D : Type}.
Implicit Types (st : ApiCache.store D) (v : ApiCache.CacheData D).

Lemma getItem_removeItem_same st key :
  ApiCache.getItem (ApiCache.removeItem key st) key = None.
Proof.
  unfold ApiCache.removeItem.
  induction st as [|[k v] st IH]; simpl; trivial.
  destruct (k =? key) eqn:E; simpl; [exact IH|]. now rewrite E.
Qed.

Lemma getItem_removeItem_other st key key' :
  key' <> key ->
  ApiCache.getItem (ApiCache.removeItem key st) key' = ApiCache.getItem st key'.
Proof.
  intros N. unfold ApiCache.removeItem.
  induction st as [|[k v] st IH]; simpl; trivial.
  destruct (k =? key) eqn:E; simpl.
  - apply String.eqb_eq in E. subst k.
    destruct (key =? key') eqn:E'; trivial.
    apply String.eqb_eq in E'. congruence.
  - now rewrite IH.
Qed.

Lemma getItem_setItem_same st key v :
  ApiCache.getItem (ApiCache.setItem key v st) key = Some v.
Proof. unfold ApiCache.setItem. simpl. now rewrite String.eqb_refl. Qed.

Lemma getItem_setItem_other st key key' v :
  key' <> key ->
  ApiCache.getItem (ApiCache.setItem key v st) key' = ApiCache.getItem st key'.
Proof.
  intros N. unfold ApiCache.setItem. simpl.
  destruct (key =? key') eqn:E.
  - apply String.eqb_eq in E. congruence.
  - now apply getItem_removeItem_other.
Qed.

End CacheFacts.

Lemma cache_hit_aux {D : Type} (key : string) (d : D) (stored now : Z)
  (st : ApiCache.store D) :
  (now - stored < 1800000)%Z ->
  ApiCache.getCachedAPIResponse key now
    (ApiCache.cacheAPIResponse key d 30 stored st)
  = (Some d, ApiCache.cacheAPIResponse key d 30 stored st).
Proof.
  intros H. unfold ApiCache.getCachedAPIResponse, ApiCache.cacheAPIResponse.
  cbv zeta. rewrite getItem_setItem_same.
  cbn [ApiCache.timestamp ApiCache.expiry ApiCache.data].
  destruct (Z.ltb_spec (now - stored) (30 * 60 * 1000)); [reflexivity|lia].
Qed.

(** X25.  A cached response is served until it expires, and never after:
    read at a time less than the expiry after it was stored, the data
    stored come back and the cache is left as it is; read later, nothing
    comes back and the entry is deleted, so that no later read finds it,
    whatever the clock; the entries under other keys are read as before. *)
Theorem cache_serves_until_expiry {D : Type}
  (key : string) (d : D) (expiryMinutes stored now : Z)
  (st : ApiCache.store D) :
  let st1 := ApiCache.cacheAPIResponse key d expiryMinutes stored st in
  ((now - stored < expiryMinutes * 60000)%Z ->
   ApiCache.getCachedAPIResponse key now st1 = (Some d, st1))
  /\ ((expiryMinutes * 60000 <= now - stored)%Z ->
      fst (ApiCache.getCachedAPIResponse key now st1) = None
      /\ forall later,
           fst (ApiCache.getCachedAPIResponse key later
                  (snd (ApiCache.getCachedAPIResponse key now st1)))
           = None)
  /\ (forall key', key' <> key ->
        fst (ApiCache.getCachedAPIResponse key' now st1)
        = fst (ApiCache.getCachedAPIResponse key' now st)).
Proof.
  cbv zeta. unfold ApiCache.getCachedAPIResponse, ApiCache.cacheAPIResponse.
  cbv zeta. rewrite getItem_setItem_same.
  cbn [ApiCache.timestamp ApiCache.expiry ApiCache.data].
  repeat split.
  - intros H.
    destruct (Z.ltb_spec (now - stored) (expiryMinutes * 60 * 1000));
      [reflexivity|lia].
  - destruct (Z.ltb_spec (now - stored) (expiryMinutes * 60 * 1000));
      [lia|reflexivity].
  - intros later.
    destruct (Z.ltb_spec (now - stored) (expiryMinutes * 60 * 1000)); [lia|].
    cbn [snd]. now rewrite getItem_removeItem_same.
  - intros key' N. rewrite getItem_setItem_other by exact N.
    destruct (ApiCache.getItem st key') as [e|]; [|reflexivity].
    destruct (_ <? _)%Z; reflexivity.
Qed.

Lemma cache_serves_until_expiry_witness :
  ApiCache.getCachedAPIResponse "search_pasta_{}" 1000000%Z
    (ApiCache.cacheAPIResponse "search_pasta_{}" [pancakes] 30 0%Z [])
  = (Some [pancakes],
     ApiCache.cacheAPIResponse "search_pasta_{}" [pancakes] 30 0%Z []).
Proof.
  apply (proj1 (cache_serves_until_expiry "search_pasta_{}" [pancakes]
                  30 0%Z 1000000%Z [])).
  lia.
Defined.

(** X26.  A search that missed the cache and found recipes is answered
    from the cache for the next thirty minutes: a second search under the
    same key, less than 1 800 000 ms after the results were stored, returns
    the first results whatever the server would answer, and leaves the
    cache as it is.  A search that found nothing stores nothing. *)
Theorem repeated_search_is_served_from_cache
  (cacheKey : string) (first second : list Recipe)
  (now1 later1 now2 later2 : Z) (st : ApiCache.store (list Recipe)) :
  fst (ApiCache.getCachedAPIResponse cacheKey now1 st) = None ->
  let after := ApiCache.searchRecipesWithCache cacheKey first now1 later1 st in
  fst after = first
  /\ (first <> [] -> (now2 - later1 < 1800000)%Z ->
      ApiCache.searchRecipesWithCache cacheKey second now2 later2 (snd after)
      = (first, snd after))
  /\ (first = [] ->
      ApiCache.getItem (snd after) cacheKey = None
      /\ fst (ApiCache.searchRecipesWithCache cacheKey second now2 later2
                (snd after))
         = second).
Proof.
  intros M. cbv zeta.
  destruct (ApiCache.getCachedAPIResponse cacheKey now1 st) as [[c|] st0] eqn:G;
    [discriminate|].
  assert (A : ApiCache.searchRecipesWithCache cacheKey first now1 later1 st
              = (first,
                 if (0 <? length first)%nat
                 then ApiCache.cacheAPIResponse cacheKey first 30 later1 st0
                 else st0))
    by (unfold ApiCache.searchRecipesWithCache; now rewrite G).
  rewrite A. cbn [fst snd]. split; [reflexivity|].
  assert (N0 : ApiCache.getItem st0 cacheKey = None).
  { unfold ApiCache.getCachedAPIResponse in G.
    destruct (ApiCache.getItem st cacheKey) as [e|] eqn:I.
    - destruct (_ <? _)%Z; [discriminate|].
      injection G as <-. apply getItem_removeItem_same.
    - now injection G as <-. }
  split.
  - intros NE T. destruct first as [|r first]; [congruence|].
    cbn [length Nat.ltb Nat.leb].
    unfold ApiCache.searchRecipesWithCache.
    now rewrite (cache_hit_aux cacheKey (r :: first) later1 now2 st0 T).
  - intros ->. cbn [length Nat.ltb Nat.leb]. split; [exact N0|].
    unfold ApiCache.searchRecipesWithCache, ApiCache.getCachedAPIResponse.
    now rewrite N0.
Qed.

Lemma repeated_search_is_served_from_cache_witness :
  let after :=
    ApiCache.searchRecipesWithCache "search_pasta_{}" [pancakes] 0%Z 5%Z [] in
  fst after = [pancakes]
  /\ ([pancakes] <> [] -> (1000 - 5 < 1800000)%Z ->
      ApiCache.searchRecipesWithCache "search_pasta_{}" [] 1000%Z 1001%Z
        (snd after)
      = ([pancakes], snd after))
  /\ ([pancakes] = [] ->
      ApiCache.getItem (snd after) "search_pasta_{}" = None
      /\ fst (ApiCache.searchRecipesWithCache "search_pasta_{}" [] 1000%Z 1001%Z
                (snd after))
         = []).
Proof.
  apply (repeated_search_is_served_from_cache "search_pasta_{}"
           [pancakes] [] 0%Z 5%Z 1000%Z 1001%Z []).
  reflexivity.
Defined.
